(** * VoucherAnalysis: the point-in-boundary core ([lib/geo.py])

    A shallow embedding of [lib/geo.py] and the properties of its
    containment test, geometry extraction, bounding boxes and feature index.

    Numbers are IEEE-754 binary64 values, as Python's [float]: the
    Standard Library's [spec_float] with precision 53 and [emax] 1024,
    rounding to nearest even.  Python exceptions are an explicit error
    result; parsed JSON is an inductive type of values.  The reading of a
    string as a float, which [geo.py] leaves to the builtin [float], is a
    parameter of the extraction. *)

From Stdlib Require Import ZArith List String Bool Lia.
From Stdlib Require Import Floats.SpecFloat.
Import ListNotations.

Local Open Scope Z_scope.
Local Open Scope string_scope.
Local Open Scope list_scope.

(** ** Python exceptions as results *)

Inductive exn : Type :=
| AttributeError
| TypeError
| ValueError
| OverflowError
| ZeroDivisionError.

Inductive result (A : Type) : Type :=
| Ok (a : A)
| Raise (e : exn).

Arguments Ok {A} a.
Arguments Raise {A} e.

Definition bind {A B : Type} (r : result A) (k : A -> result B) : result B :=
  match r with
  | Ok a => k a
  | Raise e => Raise e
  end.

Notation "x <- c ;; k" := (bind c (fun x => k))
  (at level 61, c at next level, right associativity).
Notation "' p <- c ;; k" := (bind c (fun x => match x with p => k end))
  (at level 61, p pattern, c at next level, right associativity).

(** [raises r]: the computation ends in an exception. *)
Definition raises {A : Type} (r : result A) : Prop := exists e, r = Raise e.

(** A comprehension [[f(v) for v in l]]: elements in order, the first
    exception ends it. *)
Fixpoint mapM {A B : Type} (f : A -> result B) (l : list A) : result (list B) :=
  match l with
  | [] => Ok []
  | a :: rest =>
      b <- f a ;;
      bs <- mapM f rest ;;
      Ok (b :: bs)
  end.

(** ** Python floats *)

Module PyFloat.

Definition float : Type := spec_float.

Definition prec : Z := 53.
Definition emax : Z := 1024.

Definition inf : float := S754_infinity false.
Definition neg_inf : float := S754_infinity true.
Definition zero : float := S754_zero false.

(** [of_Z_exp m e] is the float nearest to [m * 2^e]. *)
Definition of_Z_exp (m e : Z) : float := binary_normalize prec emax m e false.

(** An integer literal read as a float. *)
Definition of_Z (z : Z) : float := of_Z_exp z 0.

Definition add : float -> float -> float := SFadd prec emax.
Definition sub : float -> float -> float := SFsub prec emax.
Definition mul : float -> float -> float := SFmul prec emax.
Definition abs : float -> float := SFabs.

(** [a < b], [a > b] and [a <= b]: false whenever a NaN is involved. *)
Definition ltb (a b : float) : bool := SFltb a b.
Definition gtb (a b : float) : bool := ltb b a.
Definition leb (a b : float) : bool := SFleb a b.

Definition is_nan (a : float) : bool :=
  match a with S754_nan => true | _ => false end.

Definition is_zero (a : float) : bool :=
  match a with S754_zero _ => true | _ => false end.

Definition is_inf (a : float) : bool :=
  match a with S754_infinity _ => true | _ => false end.

Definition is_finite (a : float) : bool :=
  match a with S754_zero _ | S754_finite _ _ _ => true | _ => false end.

(** [a / b]: Python raises on a zero divisor of either sign. *)
Definition div (a b : float) : result float :=
  if is_zero b then Raise ZeroDivisionError else Ok (SFdiv prec emax a b).

(** [a ** 2]: the square; Python raises when a finite base overflows.
    The square is the correctly rounded product.  The C library's [pow],
    which CPython calls, gives the same float whenever the square is
    exact, as at every input evaluated below, and may otherwise differ
    from it in the last place; the proofs below use of the square only
    that it is a NaN on a NaN, a zero on a zero and never negative. *)
Definition pow2 (a : float) : result float :=
  let r := mul a a in
  if is_finite a && is_inf r then Raise OverflowError else Ok r.

(** The two-argument builtins [min(a, b)] and [max(a, b)]: the second
    argument replaces the first only when it compares strictly below
    (above) it. *)
Definition py_min (a b : float) : float := if ltb b a then b else a.
Definition py_max (a b : float) : float := if gtb b a then b else a.

(** The literals [1e-9] and [1e-12], rounded to binary64. *)
Definition lit_1e_9 : float := S754_finite false 4835703278458517 (-82).
Definition lit_1e_12 : float := S754_finite false 4951760157141521 (-92).

End PyFloat.

Import PyFloat.

(** ** The geometry types of [geo.py] *)

Definition Point : Type := float * float.
Definition Ring : Type := list Point.
Definition Polygon : Type := list Ring.

Definition pt (x y : Z) : Point := (of_Z x, of_Z y).

(** ** Geometry primitives *)

Definition _point_on_segment (point a b : Point) (epsilon : float) : result bool :=
  let '(x, y) := point in
  let '(x1, y1) := a in
  let '(x2, y2) := b in
  let cross := sub (mul (sub x x1) (sub y2 y1)) (mul (sub y y1) (sub x2 x1)) in
  if gtb (abs cross) epsilon then Ok false
  else
    let dot := add (mul (sub x x1) (sub x2 x1)) (mul (sub y y1) (sub y2 y1)) in
    if ltb dot zero then Ok false
    else
      sx <- pow2 (sub x2 x1) ;;
      sy <- pow2 (sub y2 y1) ;;
      let squared_len := add sx sy in
      if gtb dot squared_len then Ok false else Ok true.

(** The default no point carries: [ring[i]] is only read for [i] in range. *)
Definition no_point : Point := (S754_nan, S754_nan).

(** The edge that starts at index [i]: [ring[i]] to [ring[(i + 1) % len(ring)]]. *)
Definition ring_edge (ring : Ring) (i : nat) : Point * Point :=
  (nth i ring no_point, nth (Nat.modulo (i + 1) (List.length ring)) ring no_point).

(** [intersects = (y1 > y) != (y2 > y)] *)
Definition intersects (y y1 y2 : float) : bool :=
  negb (Bool.eqb (gtb y1 y) (gtb y2 y)).

(** [x_at_y = (x2 - x1) * (y - y1) / (y2 - y1 + 1e-12) + x1] *)
Definition x_at_y (y x1 y1 x2 y2 : float) : result float :=
  q <- div (mul (sub x2 x1) (sub y y1)) (add (sub y2 y1) lit_1e_12) ;;
  Ok (add q x1).

(** The body of the loop of [_point_in_ring] over the indices still to
    visit, with the running parity [inside]. *)
Fixpoint ring_loop (point : Point) (ring : Ring) (idxs : list nat) (inside : bool)
  : result bool :=
  match idxs with
  | [] => Ok inside
  | i :: rest =>
      let '(a, b) := ring_edge ring i in
      on_edge <- _point_on_segment point a b lit_1e_9 ;;
      if on_edge then Ok true
      else
        let '(x, y) := point in
        let '(x1, y1) := a in
        let '(x2, y2) := b in
        if intersects y y1 y2 then
          xa <- x_at_y y x1 y1 x2 y2 ;;
          if ltb x xa then ring_loop point ring rest (negb inside)
          else ring_loop point ring rest inside
        else ring_loop point ring rest inside
  end.

Definition _point_in_ring (point : Point) (ring : Ring) : result bool :=
  if Nat.ltb (List.length ring) 3 then Ok false
  else ring_loop point ring (seq 0 (List.length ring)) false.

(** The loop over [polygon[1:]]. *)
Fixpoint holes_loop (point : Point) (holes : list Ring) : result bool :=
  match holes with
  | [] => Ok true
  | hole :: rest =>
      in_hole <- _point_in_ring point hole ;;
      if in_hole then Ok false else holes_loop point rest
  end.

Definition point_in_polygon (point : Point) (polygon : Polygon) : result bool :=
  match polygon with
  | [] => Ok false
  | outer :: holes =>
      in_outer <- _point_in_ring point outer ;;
      if negb in_outer then Ok false else holes_loop point holes
  end.

(** ** Parsed JSON values *)

Set Warnings "-register-all".

(** What [json.load] produces.  A dict is its items in insertion order
    (keys are distinct in a Python dict; [dict_get] reads the first). *)
Inductive value : Type :=
| VNone
| VBool (b : bool)
| VInt (z : Z)
| VFloat (f : float)
| VStr (s : string)
| VList (l : list value)
| VDict (d : list (string * value)).

Fixpoint dict_get (d : list (string * value)) (k : string) : option value :=
  match d with
  | [] => None
  | (k', v) :: rest => if String.eqb k' k then Some v else dict_get rest k
  end.

(** [obj.get(k, default)]: only a dict has the method. *)
Definition py_get (obj : value) (k : string) (default : value) : result value :=
  match obj with
  | VDict d =>
      Ok (match dict_get d k with Some v => v | None => default end)
  | _ => Raise AttributeError
  end.

(** Truth value of an object, as [not v] and [v or w] test it. *)
Definition truthy (v : value) : bool :=
  match v with
  | VNone => false
  | VBool b => b
  | VInt z => negb (Z.eqb z 0)
  | VFloat f => negb (is_zero f)
  | VStr s => negb (String.eqb s EmptyString)
  | VList l => match l with [] => false | _ => true end
  | VDict d => match d with [] => false | _ => true end
  end.

Definition is_None (v : value) : bool :=
  match v with VNone => true | _ => false end.

(** [v == s] for a string literal [s]. *)
Definition eq_str (v : value) (s : string) : bool :=
  match v with VStr s' => String.eqb s' s | _ => false end.

(** The characters of a string, each a string of length one (strings
    are taken to be ASCII). *)
Fixpoint chars (s : string) : list value :=
  match s with
  | EmptyString => []
  | String c rest => VStr (String c EmptyString) :: chars rest
  end.

(** What a [for] loop or an unpacking sees: the elements of a list, the
    characters of a string, the keys of a dict. *)
Definition iterate (v : value) : result (list value) :=
  match v with
  | VList l => Ok l
  | VStr s => Ok (chars s)
  | VDict d => Ok (map (fun kv => VStr (fst kv)) d)
  | _ => Raise TypeError
  end.

(** The targets [x, y] of [for x, y in ring]: exactly two elements. *)
Definition unpack2 (v : value) : result (value * value) :=
  items <- iterate v ;;
  match items with
  | [x; y] => Ok (x, y)
  | _ => Raise ValueError
  end.

(** [float(z)] for an [int]: nearest float, or an overflow. *)
Definition float_of_int (z : Z) : result float :=
  let f := of_Z z in
  if is_inf f then Raise OverflowError else Ok f.

Section Extraction.

(** Python's reading of a string as a float ([float("1.5")]), [None]
    where it raises [ValueError]. *)
Variable float_of_str : string -> option float.

(** The builtin [float(v)]. *)
Definition py_float (v : value) : result float :=
  match v with
  | VNone => Raise TypeError
  | VBool b => Ok (if b then of_Z 1 else of_Z 0)
  | VInt z => float_of_int z
  | VFloat f => Ok f
  | VStr s =>
      match float_of_str s with
      | Some f => Ok f
      | None => Raise ValueError
      end
  | VList _ => Raise TypeError
  | VDict _ => Raise TypeError
  end.

(** [(float(x), float(y))] for one entry [x, y] of a ring. *)
Definition convert_entry (entry : value) : result Point :=
  '(x, y) <- unpack2 entry ;;
  fx <- py_float x ;;
  fy <- py_float y ;;
  Ok (fx, fy).

(** [[(float(x), float(y)) for x, y in ring]] *)
Definition convert_ring (ring : value) : result Ring :=
  entries <- iterate ring ;;
  mapM convert_entry entries.

(** [[[...] for ring in coords]] *)
Definition convert_polygon (coords : value) : result Polygon :=
  rings <- iterate coords ;;
  mapM convert_ring rings.

Definition extract_polygons (geometry : value) : result (list Polygon) :=
  geom_type <- py_get geometry "type" VNone ;;
  coords <- py_get geometry "coordinates" VNone ;;
  if negb (truthy geom_type) || is_None coords then Ok []
  else if eq_str geom_type "Polygon" then
    polygon <- convert_polygon coords ;;
    Ok [polygon]
  else if eq_str geom_type "MultiPolygon" then
    polygons <- iterate coords ;;
    mapM convert_polygon polygons
  else Ok [].

End Extraction.

(** ** Bounding boxes *)

Definition BBox : Type := float * float * float * float.

Definition empty_bbox : BBox := (inf, inf, neg_inf, neg_inf).

Definition min_x (box : BBox) : float := fst (fst (fst box)).
Definition min_y (box : BBox) : float := snd (fst (fst box)).
Definition max_x (box : BBox) : float := snd (fst box).
Definition max_y (box : BBox) : float := snd box.

(** One pass of the innermost loop of [polygon_bbox]. *)
Definition bbox_add (box : BBox) (p : Point) : BBox :=
  let '(min_x, min_y, max_x, max_y) := box in
  let '(x, y) := p in
  (py_min min_x x, py_min min_y y, py_max max_x x, py_max max_y y).

Definition bbox_ring (box : BBox) (ring : Ring) : BBox :=
  fold_left bbox_add ring box.

Definition bbox_polygon (box : BBox) (polygon : Polygon) : BBox :=
  fold_left bbox_ring polygon box.

Definition polygon_bbox (polygons : list Polygon) : BBox :=
  fold_left bbox_polygon polygons empty_bbox.

(** ** The feature index *)

Record GeoFeature : Type := mkGeoFeature {
  bbox : BBox;
  polygons : list Polygon;
  properties : value
}.

Section Index.

Variable float_of_str : string -> option float.

(** One iteration of the loop of [GeoFeatureIndex.__init__]: the entry
    appended for [feature], or none when the loop continues. *)
Definition index_entry (feature : value) : result (option GeoFeature) :=
  g <- py_get feature "geometry" VNone ;;
  let geometry := if truthy g then g else VDict [] in
  polys <- extract_polygons float_of_str geometry ;;
  match polys with
  | [] => Ok None
  | _ =>
      let box := polygon_bbox polys in
      props <- py_get feature "properties" (VDict []) ;;
      Ok (Some (mkGeoFeature box polys props))
  end.

(** The loop of [__init__], [acc] being [self.features] so far. *)
Fixpoint init_loop (features : list value) (acc : list GeoFeature)
  : result (list GeoFeature) :=
  match features with
  | [] => Ok acc
  | feature :: rest =>
      entry <- index_entry feature ;;
      match entry with
      | None => init_loop rest acc
      | Some f => init_loop rest (acc ++ [f])
      end
  end.

(** [GeoFeatureIndex(features)]: the value of [self.features]. *)
Definition GeoFeatureIndex_init (features : list value) : result (list GeoFeature) :=
  init_loop features [].

End Index.

(** The pruning test of [lookup]:
    [x < min_x or x > max_x or y < min_y or y > max_y]. *)
Definition bbox_rejects (box : BBox) (point : Point) : bool :=
  let '(min_x, min_y, max_x, max_y) := box in
  let '(x, y) := point in
  ltb x min_x || gtb x max_x || ltb y min_y || gtb y max_y.

(** The inner loop of [lookup]: does some polygon, in order, contain the
    point. *)
Fixpoint any_polygon (point : Point) (polys : list Polygon) : result bool :=
  match polys with
  | [] => Ok false
  | polygon :: rest =>
      hit <- point_in_polygon point polygon ;;
      if hit then Ok true else any_polygon point rest
  end.

(** [GeoFeatureIndex.lookup]; the result [VNone] is Python's [None]. *)
Fixpoint lookup (features : list GeoFeature) (point : Point) : result value :=
  match features with
  | [] => Ok VNone
  | feature :: rest =>
      if bbox_rejects (bbox feature) point then lookup rest point
      else
        hit <- any_polygon point (polygons feature) ;;
        if hit then Ok (properties feature) else lookup rest point
  end.

(** ** Notions and inputs of the statements *)

(** Floats that are not NaN, ranked: comparing ranks lexicographically
    is [SFcompare]. *)
Definition rank (a : float) : Z * Z * Z :=
  match a with
  | S754_nan => (0, 0, 0)
  | S754_zero _ => (0, 0, 0)
  | S754_infinity true => (-2, 0, 0)
  | S754_infinity false => (2, 0, 0)
  | S754_finite true m e => (-1, - e, - Zpos m)
  | S754_finite false m e => (1, e, Zpos m)
  end.

Definition lex_lt (p q : Z * Z * Z) : Prop :=
  let '(p1, p2, p3) := p in
  let '(q1, q2, q3) := q in
  p1 < q1 \/ (p1 = q1 /\ (p2 < q2 \/ (p2 = q2 /\ p3 < q3))).

Definition lex_le (p q : Z * Z * Z) : Prop :=
  let '(p1, p2, p3) := p in
  let '(q1, q2, q3) := q in
  p1 < q1 \/ (p1 = q1 /\ (p2 < q2 \/ (p2 = q2 /\ p3 <= q3))).

(** [lo <= v <= hi] *)
Definition within (lo hi v : float) : Prop :=
  leb lo v = true /\ leb v hi = true.

(** No bound of the box is a NaN. *)
Definition box_wf (box : BBox) : Prop :=
  is_nan (min_x box) = false /\ is_nan (min_y box) = false /\
  is_nan (max_x box) = false /\ is_nan (max_y box) = false.

Definition covers_x (v : float) (box : BBox) : Prop :=
  within (min_x box) (max_x box) v.
Definition covers_y (v : float) (box : BBox) : Prop :=
  within (min_y box) (max_y box) v.

(** The square of the boundary-inclusion test. *)
Definition square_ring : Ring := [pt 0 0; pt 4 0; pt 4 4; pt 0 4].

(** The other lattice points of its boundary. *)
Definition square_boundary : list Point :=
  [pt 1 0; pt 3 0; pt 4 0; pt 4 1; pt 4 2; pt 4 3; pt 4 4;
   pt 3 4; pt 2 4; pt 1 4; pt 0 4; pt 0 3; pt 0 2; pt 0 1].

(** The square with a square hole of the hole-exclusion test. *)
Definition holed_square : Polygon :=
  [ [pt 0 0; pt 10 0; pt 10 10; pt 0 10];
    [pt 4 4; pt 6 4; pt 6 6; pt 4 6] ].

(** A unit square. *)
Definition unit_square : Ring := [pt 0 0; pt 1 0; pt 1 1; pt 0 1].

(** What [lookup] does with one feature: true when it returns this
    feature's properties, false when it goes on to the next feature. *)
Definition feature_matches (feature : GeoFeature) (point : Point) : result bool :=
  if bbox_rejects (bbox feature) point then Ok false
  else any_polygon point (polygons feature).

(** The geometry {"type": "Polygon", "coordinates": []}. *)
Definition empty_polygon_geometry : value :=
  VDict [("type", VStr "Polygon"); ("coordinates", VList [])].

(** A reading of strings under which none is a number, for the inputs
    below: the only string they offer to [float] is "abc". *)
Definition no_str_float : string -> option float := fun _ => None.

(** A geometry record without [type], with a [type] other than "Polygon"
    and "MultiPolygon", or without [coordinates]. *)
Definition unsupported_geometry (gd : list (string * value)) : Prop :=
  dict_get gd "type" = None \/
  (exists t, dict_get gd "type" = Some t /\
             t <> VStr "Polygon" /\ t <> VStr "MultiPolygon") \/
  dict_get gd "coordinates" = None.

(** [feature.get("geometry") or {}] *)
Definition feature_geometry (fd : list (string * value)) : value :=
  match dict_get fd "geometry" with
  | Some g => if truthy g then g else VDict []
  | None => VDict []
  end.

(** Feature records of the examples. *)
Definition square_coords (x0 y0 x1 y1 : Z) : value :=
  VList [VList [VList [VInt x0; VInt y0]; VList [VInt x1; VInt y0];
                VList [VInt x1; VInt y1]; VList [VInt x0; VInt y1]]].

Definition feature_record (geometry : value) (name : string) : value :=
  VDict [("type", VStr "Feature");
         ("geometry", geometry);
         ("properties", VDict [("name", VStr name)])].

Definition polygon_geometry (coords : value) : value :=
  VDict [("type", VStr "Polygon"); ("coordinates", coords)].

(** The square from (0,0) to (10,10), named "North", and its entry. *)
Definition north : value :=
  feature_record (polygon_geometry (square_coords 0 0 10 10)) "North".

Definition north_entry : GeoFeature :=
  mkGeoFeature (of_Z 0, of_Z 0, of_Z 10, of_Z 10)
               [[[pt 0 0; pt 10 0; pt 10 10; pt 0 10]]]
               (VDict [("name", VStr "North")]).

(** A record of type "Point". *)
Definition point_geometry : list (string * value) :=
  [("type", VStr "Point"); ("coordinates", VList [VInt 1; VInt 2])].

Definition point_feature : list (string * value) :=
  [("type", VStr "Feature");
   ("geometry", VDict point_geometry);
   ("properties", VDict [("name", VStr "Dot")])].

(** A polygon geometry whose second entry has "abc" for its [x]. *)
Definition abc_geometry : list (string * value) :=
  [("type", VStr "Polygon");
   ("coordinates",
    VList [VList [VList [VInt 0; VInt 0]; VList [VStr "abc"; VInt 0];
                  VList [VInt 1; VInt 1]]])].

(** A polygon record with a coordinate that is no number. *)
Definition abc_feature : list (string * value) :=
  [("type", VStr "Feature");
   ("geometry", VDict abc_geometry);
   ("properties", VDict [("name", VStr "Bad")])].

(** [entry] is one of the entries of a ring of the polygon [coords]. *)
Definition polygon_entry (coords entry : value) : Prop :=
  exists rings ring entries,
    iterate coords = Ok rings /\ In ring rings /\
    iterate ring = Ok entries /\ In entry entries.

(** [entry] is a coordinate entry of a geometry record of a supported type. *)
Definition coordinate_entry (gd : list (string * value)) (entry : value) : Prop :=
  exists coords,
    dict_get gd "coordinates" = Some coords /\
    ((dict_get gd "type" = Some (VStr "Polygon") /\ polygon_entry coords entry) \/
     (dict_get gd "type" = Some (VStr "MultiPolygon") /\
      exists polys poly,
        iterate coords = Ok polys /\ In poly polys /\ polygon_entry poly entry)).

(** The exceptions of a failed conversion. *)
Definition conversion_error (e : exn) : Prop :=
  e = TypeError \/ e = ValueError \/ e = OverflowError.

(** A square whose coordinate entries carry a third component. *)
Definition xyz_ring : value :=
  VList [VList [VInt 0; VInt 0; VInt 5]; VList [VInt 4; VInt 0; VInt 5];
         VList [VInt 4; VInt 4; VInt 5]; VList [VInt 0; VInt 4; VInt 5]].

Definition xyz_polygon : list (string * value) :=
  [("type", VStr "Polygon"); ("coordinates", VList [xyz_ring])].

Definition xyz_multipolygon : list (string * value) :=
  [("type", VStr "MultiPolygon"); ("coordinates", VList [VList [xyz_ring]])].

(** Two squares that share the edge from (0,0) to (4,0), and a point
    2^-40 below the middle of that edge. *)
Definition upper_record : value :=
  feature_record (polygon_geometry (square_coords 0 0 4 4)) "Upper".
Definition lower_record : value :=
  feature_record (polygon_geometry (square_coords 0 (-4) 4 0)) "Lower".

Definition upper_ring : Ring := [pt 0 0; pt 4 0; pt 4 4; pt 0 4].
Definition lower_ring : Ring := [pt 0 (-4); pt 4 (-4); pt 4 0; pt 0 0].

Definition upper : GeoFeature :=
  mkGeoFeature (of_Z 0, of_Z 0, of_Z 4, of_Z 4) [[upper_ring]]
               (VDict [("name", VStr "Upper")]).
Definition lower : GeoFeature :=
  mkGeoFeature (of_Z 0, of_Z (-4), of_Z 4, of_Z 0) [[lower_ring]]
               (VDict [("name", VStr "Lower")]).

Definition just_below : Point := (of_Z 2, of_Z_exp (-1) (-40)).

(** A square away from both. *)
Definition far_record : value :=
  feature_record (polygon_geometry (square_coords 20 20 24 24)) "Far".
Definition far_ring : Ring := [pt 20 20; pt 24 20; pt 24 24; pt 20 24].
Definition far : GeoFeature :=
  mkGeoFeature (of_Z 20, of_Z 20, of_Z 24, of_Z 24) [[far_ring]]
               (VDict [("name", VStr "Far")]).

(** A ring closed the way GeoJSON writes it, the first point repeated at
    the end. *)
Definition closed_ring : Ring := [pt 0 0; pt 4 0; pt 4 4; pt 0 4; pt 0 0].

(** A triangle with the thin edge from (0,0) to (10, -2e-12). *)
Definition thin_y : float := SFopp (mul (of_Z 2) lit_1e_12).
Definition thin_triangle : Ring := [pt 0 0; (of_Z 10, thin_y); pt 0 (-1)].

(** ** Further notions: degenerate edges, vertices, encodings *)

(** A zero of either sign, or a NaN: what a product with a zero factor
    can be. *)
Definition zero_or_nan (a : float) : bool :=
  match a with
  | S754_zero _ | S754_nan => true
  | _ => false
  end.

(** Not below zero: a NaN, a zero, or a positive number or infinity. *)
Definition not_negative (a : float) : bool :=
  match a with
  | S754_zero _ | S754_nan => true
  | S754_infinity s | S754_finite s _ _ => negb s
  end.

(** [p] is a point of a ring of a polygon of [polys]. *)
Definition vertex_of (polys : list Polygon) (p : Point) : Prop :=
  exists polygon ring, In polygon polys /\ In ring polygon /\ In p ring.

(** The exceptions of float arithmetic. *)
Definition arithmetic_error (e : exn) : Prop :=
  e = ZeroDivisionError \/ e = OverflowError.

(** A triangle with the edge from (0, 1e-12) to (1000000, 0): at [y = 0]
    the denominator [y2 - y1 + 1e-12] of that edge is zero. *)
Definition zero_denominator_triangle : Ring :=
  [(of_Z 0, lit_1e_12); pt 1000000 0; pt 500000 10].

Definition zero_denominator_feature : GeoFeature :=
  mkGeoFeature (polygon_bbox [[zero_denominator_triangle]])
               [[zero_denominator_triangle]] (VDict [("name", VStr "Thin")]).

(** Polygons written as nested coordinate arrays of floats. *)
Definition encode_point (p : Point) : value := VList [VFloat (fst p); VFloat (snd p)].
Definition encode_ring (ring : Ring) : value := VList (map encode_point ring).
Definition encode_polygon (polygon : Polygon) : value := VList (map encode_ring polygon).
Definition encode_polygons (polys : list Polygon) : value := VList (map encode_polygon polys).

(** Each bound of the box is the infinity it starts from or a coordinate
    of a point among [V]. *)
Definition attained (V : Point -> Prop) (box : BBox) : Prop :=
  (min_x box = inf \/ exists p, V p /\ fst p = min_x box) /\
  (min_y box = inf \/ exists p, V p /\ snd p = min_y box) /\
  (max_x box = neg_inf \/ exists p, V p /\ fst p = max_x box) /\
  (max_y box = neg_inf \/ exists p, V p /\ snd p = max_y box).

(** ** The caller: [enrich_vendors] of [scripts/build_tx_efa_workbook.py] *)

(** [d[k] = v]: an existing key keeps its place, a new one goes last. *)
Fixpoint dict_set (d : list (string * value)) (k : string) (v : value)
  : list (string * value) :=
  match d with
  | [] => [(k, v)]
  | (k', v') :: rest =>
      if String.eqb k' k then (k', v) :: rest else (k', v') :: dict_set rest k v
  end.

(** [row.get(k)] on a dict. *)
Definition row_get (row : list (string * value)) (k : string) : value :=
  match dict_get row k with
  | Some v => v
  | None => VNone
  end.

(** The columns [enrich_vendors] writes, in the order it writes them. *)
Definition tea_fields : list string :=
  ["tea_esc_region"; "tea_esc_city"; "tea_esc_website";
   "tea_county_name"; "tea_county_fips"; "tea_county_cntyfips";
   "tea_school_district_name"; "tea_school_district_name20";
   "tea_school_district_number"; "tea_school_district_nces";
   "tea_school_district_geoid20"].

(** The counters [missing["esc"]], [missing["county"]], [missing["district"]]. *)
Record Missing : Type := mkMissing {
  missing_esc : nat;
  missing_county : nat;
  missing_district : nat
}.

Section Enrich.

Variable float_of_str : string -> option float.

(** [str.title()], the casing of Python's strings. *)
Variable str_title : string -> string.

Variables esc_index county_index district_index : list GeoFeature.

(** [try: point = (float(lng), float(lat)) except ValueError: point = None] *)
Definition parse_point (lng lat : value) : result (option Point) :=
  match py_float float_of_str lng with
  | Ok x =>
      match py_float float_of_str lat with
      | Ok y => Ok (Some (x, y))
      | Raise ValueError => Ok None
      | Raise e => Raise e
      end
  | Raise ValueError => Ok None
  | Raise e => Raise e
  end.

(** The three properties looked up for a row, [None] where no lookup is
    made. *)
Definition locate (row : list (string * value)) : result (value * value * value) :=
  let lat := row_get row "location_lat" in
  let lng := row_get row "location_lng" in
  if truthy lat && truthy lng then
    point <- parse_point lng lat ;;
    match point with
    | Some p =>
        esc_props <- lookup esc_index p ;;
        county_props <- lookup county_index p ;;
        district_props <- lookup district_index p ;;
        Ok (esc_props, county_props, district_props)
    | None => Ok (VNone, VNone, VNone)
    end
  else Ok (VNone, VNone, VNone).

(** [enriched[key] = props.get(field, "")] *)
Definition set_from (enriched : list (string * value)) (key : string)
           (props : value) (field : string) : result (list (string * value)) :=
  v <- py_get props field (VStr EmptyString) ;;
  Ok (dict_set enriched key v).

(** [county_name.title() if county_name else ""], with [county_name] the
    "FENAME" of the properties or else their "NAME". *)
Definition county_title (county_props : value) : result value :=
  fename <- py_get county_props "FENAME" (VStr EmptyString) ;;
  county_name <- (if truthy fename then Ok fename
                  else py_get county_props "NAME" (VStr EmptyString)) ;;
  if truthy county_name then
    match county_name with
    | VStr s => Ok (VStr (str_title s))
    | _ => Raise AttributeError
    end
  else Ok (VStr EmptyString).

(** The body of the loop for one row: the enriched row, and for each
    layer whether the row counts as missing. *)
Definition enrich_row (row : list (string * value))
  : result (list (string * value) * (bool * bool * bool)) :=
  let enriched := row in
  '(esc, county, district) <- locate row ;;
  let no_esc := negb (truthy esc) in
  let esc_props := if no_esc then VDict [] else esc in
  let no_county := negb (truthy county) in
  let county_props := if no_county then VDict [] else county in
  let no_district := negb (truthy district) in
  let district_props := if no_district then VDict [] else district in
  enriched <- set_from enriched "tea_esc_region" esc_props "ESC_REGION" ;;
  enriched <- set_from enriched "tea_esc_city" esc_props "CITY" ;;
  enriched <- set_from enriched "tea_esc_website" esc_props "WEBSITE" ;;
  name <- county_title county_props ;;
  let enriched := dict_set enriched "tea_county_name" name in
  enriched <- set_from enriched "tea_county_fips" county_props "FIPS" ;;
  enriched <- set_from enriched "tea_county_cntyfips" county_props "CNTYFIPS" ;;
  enriched <- set_from enriched "tea_school_district_name" district_props "NAME" ;;
  enriched <- set_from enriched "tea_school_district_name20" district_props "NAME20" ;;
  enriched <- set_from enriched "tea_school_district_number" district_props "DISTRICT_C" ;;
  enriched <- set_from enriched "tea_school_district_nces" district_props "NCES_DISTR" ;;
  enriched <- set_from enriched "tea_school_district_geoid20" district_props "GEOID20" ;;
  Ok (enriched, (no_esc, no_county, no_district)).

Definition count (missing : nat) (b : bool) : nat :=
  if b then S missing else missing.

(** The loop of [enrich_vendors], with [enriched_rows] and [missing] so far. *)
Fixpoint enrich_loop (vendor_rows : list (list (string * value)))
         (enriched_rows : list (list (string * value))) (missing : Missing)
  : result (list (list (string * value)) * Missing) :=
  match vendor_rows with
  | [] => Ok (enriched_rows, missing)
  | row :: rest =>
      '(enriched, (no_esc, no_county, no_district)) <- enrich_row row ;;
      enrich_loop rest (enriched_rows ++ [enriched])
                  (mkMissing (count (missing_esc missing) no_esc)
                             (count (missing_county missing) no_county)
                             (count (missing_district missing) no_district))
  end.

Definition enrich_vendors (vendor_rows : list (list (string * value)))
  : result (list (list (string * value)) * Missing) :=
  enrich_loop vendor_rows [] (mkMissing 0 0 0).

End Enrich.

(** The layers, and the properties each written column is read from
    ("tea_county_name" apart, which goes through [str.title]). *)
Inductive layer : Type := Esc | County | District.

Definition tea_sources : list (string * layer * string) :=
  [("tea_esc_region", Esc, "ESC_REGION");
   ("tea_esc_city", Esc, "CITY");
   ("tea_esc_website", Esc, "WEBSITE");
   ("tea_county_fips", County, "FIPS");
   ("tea_county_cntyfips", County, "CNTYFIPS");
   ("tea_school_district_name", District, "NAME");
   ("tea_school_district_name20", District, "NAME20");
   ("tea_school_district_number", District, "DISTRICT_C");
   ("tea_school_district_nces", District, "NCES_DISTR");
   ("tea_school_district_geoid20", District, "GEOID20")].

(** [props] when it is truthy, [{}] otherwise. *)
Definition or_empty (props : value) : value :=
  if truthy props then props else VDict [].

Definition layer_props (found : value * value * value) (l : layer) : value :=
  let '(esc, county, district) := found in
  match l with
  | Esc => or_empty esc
  | County => or_empty county
  | District => or_empty district
  end.

(** A row with every written column set to the empty string. *)
Definition blank_row (row : list (string * value)) : list (string * value) :=
  fold_left (fun d k => dict_set d k (VStr EmptyString)) tea_fields row.

(** How many rows count as missing in each layer. *)
Definition tally (flags : list (bool * bool * bool)) : Missing :=
  mkMissing (List.length (filter (fun f => fst (fst f)) flags))
            (List.length (filter (fun f => snd (fst f)) flags))
            (List.length (filter (fun f => snd f) flags)).

(** The entries the loop of [__init__] keeps. *)
Definition kept (entries : list (option GeoFeature)) : list GeoFeature :=
  flat_map (fun o => match o with Some f => [f] | None => [] end) entries.

(** Inputs of the examples: what [float] reads in the strings they use,
    a stand-in for [str.title] on names already in title case, and three
    small indexes. *)
Definition example_float (s : string) : option float :=
  if String.eqb s "2" then Some (of_Z 2)
  else if String.eqb s "-2" then Some (of_Z (-2))
  else if String.eqb s "30" then Some (of_Z 30)
  else None.

Definition same_case (s : string) : string := s.

Definition esc_example : list GeoFeature :=
  [mkGeoFeature (of_Z 0, of_Z 0, of_Z 4, of_Z 4) [[upper_ring]]
                (VDict [("ESC_REGION", VStr "13"); ("CITY", VStr "Austin")])].

Definition county_example : list GeoFeature :=
  [mkGeoFeature (of_Z 0, of_Z 0, of_Z 4, of_Z 4) [[upper_ring]]
                (VDict [("NAME", VStr "Travis"); ("FIPS", VStr "453")])].

Definition vendor_inside : list (string * value) :=
  [("vendor", VStr "Acme"); ("location_lat", VStr "2"); ("location_lng", VStr "2")].

Definition vendor_unreadable : list (string * value) :=
  [("vendor", VStr "Bolt"); ("location_lat", VStr "abc"); ("location_lng", VStr "2")].

Definition vendor_inside_enriched : list (string * value) :=
  [("vendor", VStr "Acme"); ("location_lat", VStr "2"); ("location_lng", VStr "2");
   ("tea_esc_region", VStr "13"); ("tea_esc_city", VStr "Austin");
   ("tea_esc_website", VStr EmptyString);
   ("tea_county_name", VStr "Travis"); ("tea_county_fips", VStr "453");
   ("tea_county_cntyfips", VStr EmptyString);
   ("tea_school_district_name", VStr EmptyString);
   ("tea_school_district_name20", VStr EmptyString);
   ("tea_school_district_number", VStr EmptyString);
   ("tea_school_district_nces", VStr EmptyString);
   ("tea_school_district_geoid20", VStr EmptyString)].

(** A point and a ring of NaN, as [float("nan")] and a JSON [NaN] give
    them, the record that carries the ring and its entry, and a ring with
    one point whose [x] is a NaN. *)
Definition nan_point : Point := (S754_nan, S754_nan).
Definition nan_ring : Ring := [nan_point; nan_point; nan_point].

Definition nan_record : value :=
  feature_record
    (polygon_geometry
       (VList [VList [VList [VFloat S754_nan; VFloat S754_nan];
                      VList [VFloat S754_nan; VFloat S754_nan];
                      VList [VFloat S754_nan; VFloat S754_nan]]]))
    "Nowhere".

Definition nan_feature : GeoFeature :=
  mkGeoFeature empty_bbox [[nan_ring]] (VDict [("name", VStr "Nowhere")]).

Definition half_nan_ring : Ring := [(S754_nan, of_Z 1)].

(** * Properties *)

(** ** The order of floats *)

Ltac float_cases :=
  repeat match goal with
         | a : float |- _ => destruct a as [[|]|[|]| |[|] ? ?]
         | a : spec_float |- _ => destruct a as [[|]|[|]| |[|] ? ?]
         end.

Ltac compare_cases :=
  repeat match goal with
         | |- context [Z.compare ?a ?b] => destruct (Z.compare_spec a b)
         | |- context [Pos.compare_cont Eq ?a ?b] =>
             change (Pos.compare_cont Eq a b) with (Pos.compare a b);
             destruct (Pos.compare_spec a b)
         end.

Lemma ltb_spec (a b : float) :
  ltb a b = true <->
  is_nan a = false /\ is_nan b = false /\ lex_lt (rank a) (rank b).
Proof.
  unfold ltb, SFltb.
  float_cases; cbn -[Z.compare Pos.compare_cont]; compare_cases; cbn;
    split; intros; try discriminate; try intuition (discriminate || lia).
Qed.

Lemma leb_spec (a b : float) :
  leb a b = true <->
  is_nan a = false /\ is_nan b = false /\ lex_le (rank a) (rank b).
Proof.
  unfold leb, SFleb.
  float_cases; cbn -[Z.compare Pos.compare_cont]; compare_cases; cbn;
    split; intros; try discriminate; try intuition (discriminate || lia).
Qed.

Ltac lex_solve :=
  repeat match goal with
         | H : ltb _ _ = true |- _ => apply ltb_spec in H
         | H : leb _ _ = true |- _ => apply leb_spec in H
         | H : gtb _ _ = true |- _ => unfold gtb in H; apply ltb_spec in H
         | H : ltb ?a ?b = false |- _ =>
             assert (~ (is_nan a = false /\ is_nan b = false
                        /\ lex_lt (rank a) (rank b)))
               by (rewrite <- ltb_spec, H; discriminate);
             clear H
         | H : gtb ?a ?b = false |- _ => unfold gtb in H
         end;
  repeat match goal with
         | |- ltb _ _ = true => apply ltb_spec
         | |- leb _ _ = true => apply leb_spec
         | |- gtb _ _ = true => unfold gtb; apply ltb_spec
         | |- ltb ?a ?b = false =>
             destruct (ltb a b) eqn:?; [exfalso | reflexivity]
         | |- gtb ?a ?b = false => unfold gtb
         end;
  repeat match goal with
         | H : ltb _ _ = true |- _ => apply ltb_spec in H
         end;
  repeat match goal with
         | a : float |- _ =>
             let r := fresh "r" in
             let E := fresh "E" in
             remember (rank a) as r eqn:E; clear E;
             destruct r as [[? ?] ?];
             destruct (is_nan a); clear a
         end;
  unfold lex_lt, lex_le in *; intuition (try discriminate; try lia).

Lemma leb_refl (a : float) : is_nan a = false -> leb a a = true.
Proof. intros. lex_solve. Qed.

Lemma ltb_leb (a b : float) : ltb a b = true -> leb a b = true.
Proof. intros. lex_solve. Qed.

Lemma not_ltb_leb (a b : float) :
  is_nan a = false -> is_nan b = false -> ltb a b = false -> leb b a = true.
Proof. intros. lex_solve. Qed.

Lemma leb_not_ltb (a b : float) : leb a b = true -> ltb b a = false.
Proof. intros. lex_solve. Qed.

Lemma leb_trans (a b c : float) :
  leb a b = true -> leb b c = true -> leb a c = true.
Proof. intros. lex_solve. Qed.

Lemma ltb_leb_trans (a b c : float) :
  ltb a b = true -> leb b c = true -> ltb a c = true.
Proof. intros. lex_solve. Qed.

Lemma ltb_not_nan (a b : float) :
  ltb a b = true -> is_nan a = false /\ is_nan b = false.
Proof. intros H. apply ltb_spec in H. tauto. Qed.

Lemma leb_not_nan (a b : float) :
  leb a b = true -> is_nan a = false /\ is_nan b = false.
Proof. intros H. apply leb_spec in H. tauto. Qed.

(** ** Bounding boxes: what the running minimum and maximum keep *)

Lemma py_min_not_nan (lo v : float) :
  is_nan lo = false -> is_nan (py_min lo v) = false.
Proof.
  intros H. unfold py_min. destruct (ltb v lo) eqn:E; [|exact H].
  apply ltb_not_nan in E. tauto.
Qed.

Lemma py_max_not_nan (hi v : float) :
  is_nan hi = false -> is_nan (py_max hi v) = false.
Proof.
  intros H. unfold py_max, gtb. destruct (ltb hi v) eqn:E; [|exact H].
  apply ltb_not_nan in E. tauto.
Qed.

Lemma within_new (lo hi v : float) :
  is_nan lo = false -> is_nan hi = false -> is_nan v = false ->
  within (py_min lo v) (py_max hi v) v.
Proof.
  intros Hlo Hhi Hv. unfold within, py_min, py_max, gtb. split.
  - destruct (ltb v lo) eqn:E.
    + now apply leb_refl.
    + now apply not_ltb_leb.
  - destruct (ltb hi v) eqn:E.
    + now apply leb_refl.
    + now apply not_ltb_leb.
Qed.

Lemma within_kept (lo hi v w : float) :
  within lo hi v -> within (py_min lo w) (py_max hi w) v.
Proof.
  intros [H1 H2]. unfold within, py_min, py_max, gtb. split.
  - destruct (ltb w lo) eqn:E; [|exact H1].
    apply ltb_leb in E. eapply leb_trans; eassumption.
  - destruct (ltb hi w) eqn:E; [|exact H2].
    apply ltb_leb in E. eapply leb_trans; eassumption.
Qed.

Lemma empty_bbox_wf : box_wf empty_bbox.
Proof. repeat split. Qed.

Lemma bbox_add_wf (box : BBox) (p : Point) : box_wf box -> box_wf (bbox_add box p).
Proof.
  destruct box as [[[a b] c] d], p as [x y]. unfold box_wf. cbn.
  intros (Ha & Hb & Hc & Hd).
  auto using py_min_not_nan, py_max_not_nan.
Qed.

Lemma bbox_add_covers_x (v : float) (box : BBox) (p : Point) :
  covers_x v box -> covers_x v (bbox_add box p).
Proof.
  destruct box as [[[a b] c] d], p as [x y]. unfold covers_x. cbn.
  apply within_kept.
Qed.

Lemma bbox_add_covers_y (v : float) (box : BBox) (p : Point) :
  covers_y v box -> covers_y v (bbox_add box p).
Proof.
  destruct box as [[[a b] c] d], p as [x y]. unfold covers_y. cbn.
  apply within_kept.
Qed.

Lemma bbox_add_new_x (box : BBox) (p : Point) :
  box_wf box -> is_nan (fst p) = false -> covers_x (fst p) (bbox_add box p).
Proof.
  destruct box as [[[a b] c] d], p as [x y]. unfold box_wf, covers_x. cbn.
  intros (Ha & Hb & Hc & Hd) Hx. now apply within_new.
Qed.

Lemma bbox_add_new_y (box : BBox) (p : Point) :
  box_wf box -> is_nan (snd p) = false -> covers_y (snd p) (bbox_add box p).
Proof.
  destruct box as [[[a b] c] d], p as [x y]. unfold box_wf, covers_y. cbn.
  intros (Ha & Hb & Hc & Hd) Hy. now apply within_new.
Qed.

Section FoldLeft.

Context {A B : Type} (f : B -> A -> B).
Variables (W Q : B -> Prop).
Hypothesis W_step : forall b x, W b -> W (f b x).
Hypothesis Q_step : forall b x, W b -> Q b -> Q (f b x).

Lemma fold_left_keeps (l : list A) (b : B) : W b -> W (fold_left f l b).
Proof. revert b. induction l as [|x l IH]; cbn; auto. Qed.

Lemma fold_left_keeps2 (l : list A) (b : B) :
  W b -> Q b -> Q (fold_left f l b).
Proof. revert b. induction l as [|x l IH]; cbn; auto. Qed.

Lemma fold_left_reaches (a : A) (l : list A) (b : B) :
  (forall b', W b' -> Q (f b' a)) ->
  W b -> In a l -> Q (fold_left f l b).
Proof.
  intros Ha. revert b. induction l as [|x l IH]; cbn; [tauto|].
  intros b Hb [->|Hin].
  - apply fold_left_keeps2; auto.
  - apply IH; auto.
Qed.

End FoldLeft.

Lemma bbox_ring_wf (box : BBox) (ring : Ring) : box_wf box -> box_wf (bbox_ring box ring).
Proof. apply fold_left_keeps. intros; now apply bbox_add_wf. Qed.

Lemma bbox_polygon_wf (box : BBox) (polygon : Polygon) :
  box_wf box -> box_wf (bbox_polygon box polygon).
Proof. apply fold_left_keeps. intros; now apply bbox_ring_wf. Qed.

Lemma polygon_bbox_wf (polys : list Polygon) : box_wf (polygon_bbox polys).
Proof.
  apply (fold_left_keeps bbox_polygon box_wf).
  - intros; now apply bbox_polygon_wf.
  - apply empty_bbox_wf.
Qed.

Section Covers.

(** [cov] is [covers_x] or [covers_y], and [sel] the coordinate it reads. *)
Variable cov : float -> BBox -> Prop.
Variable sel : Point -> float.
Hypothesis cov_add : forall v box p, cov v box -> cov v (bbox_add box p).
Hypothesis cov_new : forall box p,
  box_wf box -> is_nan (sel p) = false -> cov (sel p) (bbox_add box p).

Lemma bbox_ring_keeps (v : float) (box : BBox) (ring : Ring) :
  cov v box -> cov v (bbox_ring box ring).
Proof. apply fold_left_keeps. intros; now apply cov_add. Qed.

Lemma bbox_polygon_keeps (v : float) (box : BBox) (polygon : Polygon) :
  cov v box -> cov v (bbox_polygon box polygon).
Proof. apply fold_left_keeps. intros; now apply bbox_ring_keeps. Qed.

Lemma bbox_ring_reaches (p : Point) (box : BBox) (ring : Ring) :
  box_wf box -> is_nan (sel p) = false -> In p ring ->
  cov (sel p) (bbox_ring box ring).
Proof.
  intros Hwf Hp Hin.
  apply (fold_left_reaches bbox_add box_wf (cov (sel p))) with (a := p); auto.
  intros; now apply bbox_add_wf.
Qed.

Lemma bbox_polygon_reaches (p : Point) (ring : Ring) (box : BBox) (polygon : Polygon) :
  box_wf box -> is_nan (sel p) = false -> In p ring -> In ring polygon ->
  cov (sel p) (bbox_polygon box polygon).
Proof.
  intros Hwf Hp Hin Hring.
  apply (fold_left_reaches bbox_ring box_wf (cov (sel p))) with (a := ring);
    auto.
  - intros; now apply bbox_ring_wf.
  - intros; now apply bbox_ring_keeps.
  - intros; now apply bbox_ring_reaches.
Qed.

Lemma polygon_bbox_reaches (p : Point) (ring : Ring) (polygon : Polygon)
      (polys : list Polygon) :
  is_nan (sel p) = false -> In p ring -> In ring polygon -> In polygon polys ->
  cov (sel p) (polygon_bbox polys).
Proof.
  intros Hp Hin Hring Hpoly.
  apply (fold_left_reaches bbox_polygon box_wf (cov (sel p)))
    with (a := polygon); auto.
  - intros; now apply bbox_polygon_wf.
  - intros; now apply bbox_polygon_keeps.
  - intros; now apply bbox_polygon_reaches with (ring := ring).
  - apply empty_bbox_wf.
Qed.

End Covers.

Lemma polygon_bbox_covers_x (p : Point) (ring : Ring) (polygon : Polygon)
      (polys : list Polygon) :
  is_nan (fst p) = false -> In p ring -> In ring polygon -> In polygon polys ->
  covers_x (fst p) (polygon_bbox polys).
Proof.
  apply (polygon_bbox_reaches covers_x fst).
  - exact bbox_add_covers_x.
  - exact bbox_add_new_x.
Qed.

Lemma polygon_bbox_covers_y (p : Point) (ring : Ring) (polygon : Polygon)
      (polys : list Polygon) :
  is_nan (snd p) = false -> In p ring -> In ring polygon -> In polygon polys ->
  covers_y (snd p) (polygon_bbox polys).
Proof.
  apply (polygon_bbox_reaches covers_y snd).
  - exact bbox_add_covers_y.
  - exact bbox_add_new_y.
Qed.

(** ** Rings and polygons with holes *)

(** Once the loop meets an edge the point is on, it answers true, unless
    an earlier edge raised. *)
Lemma ring_loop_on_edge (point : Point) (ring : Ring) (idxs : list nat) (inside : bool)
      (i : nat) :
  In i idxs ->
  _point_on_segment point (fst (ring_edge ring i)) (snd (ring_edge ring i)) lit_1e_9
    = Ok true ->
  ring_loop point ring idxs inside = Ok true \/
  raises (ring_loop point ring idxs inside).
Proof.
  intros Hin Hon. revert inside.
  induction idxs as [|j rest IH]; [destruct Hin|].
  intros inside. cbn [ring_loop].
  destruct (ring_edge ring j) as [a b] eqn:Ej.
  destruct (_point_on_segment point a b lit_1e_9) as [[|]|e] eqn:Eon; cbn [bind].
  - now left.
  - destruct Hin as [->|Hin].
    + rewrite Ej in Hon. cbn [fst snd] in Hon. congruence.
    + destruct point as [x y], a as [x1 y1], b as [x2 y2].
      destruct (intersects y y1 y2); [|now apply IH].
      destruct (x_at_y y x1 y1 x2 y2) as [xa|e]; cbn [bind].
      * destruct (ltb x xa); now apply IH.
      * right. now exists e.
  - right. now exists e.
Qed.

(** Splits a conjunction of closed facts and evaluates each. *)
Ltac evaluate :=
  repeat match goal with |- _ /\ _ => split end;
  try match goal with |- @eq _ _ _ => vm_compute; reflexivity end.

(** C5: on the square ring (0,0),(4,0),(4,4),(0,4) the ring test answers
    true for the vertex (0,0), the mid-edge point (2,0) and the interior
    point (2,2), false for (5,5) and (-1,2); the other lattice points of
    the boundary are inside as well. *)
Theorem square_ring_boundary_inclusion :
  _point_in_ring (pt 0 0) square_ring = Ok true /\
  _point_in_ring (pt 2 0) square_ring = Ok true /\
  _point_in_ring (pt 2 2) square_ring = Ok true /\
  _point_in_ring (pt 5 5) square_ring = Ok false /\
  _point_in_ring (pt (-1) 2) square_ring = Ok false /\
  Forall (fun p => _point_in_ring p square_ring = Ok true) square_boundary.
Proof.
  evaluate.
  unfold square_boundary.
  repeat (apply Forall_cons; [vm_compute; reflexivity|]). apply Forall_nil.
Qed.

Lemma holes_loop_true (point : Point) (holes : list Ring) :
  holes_loop point holes = Ok true <->
  Forall (fun hole => _point_in_ring point hole = Ok false) holes.
Proof.
  induction holes as [|hole rest IH]; cbn [holes_loop].
  - split; auto.
  - destruct (_point_in_ring point hole) as [[|]|e] eqn:E; cbn [bind].
    + split; [discriminate|]. intros H. inversion H; congruence.
    + rewrite IH. split.
      * intros H. now constructor.
      * intros H. now inversion H.
    + split; [discriminate|]. intros H. inversion H; congruence.
Qed.

(** C4: a point is in a non-empty polygon exactly when the ring test
    accepts it for the outer ring [polygon[0]] and rejects it for every
    hole of [polygon[1:]]; in the square with a square hole, (5,5) and
    (4,4) are outside and (1,1) is inside. *)
Theorem point_in_polygon_outer_minus_holes :
  (forall (point : Point) (outer : Ring) (holes : list Ring),
      point_in_polygon point (outer :: holes) = Ok true <->
      _point_in_ring point outer = Ok true /\
      Forall (fun hole => _point_in_ring point hole = Ok false) holes) /\
  point_in_polygon (pt 5 5) holed_square = Ok false /\
  point_in_polygon (pt 4 4) holed_square = Ok false /\
  point_in_polygon (pt 1 1) holed_square = Ok true.
Proof.
  split; [|evaluate].
  intros point outer holes. cbn [point_in_polygon].
  destruct (_point_in_ring point outer) as [[|]|e]; cbn [bind negb].
  - rewrite holes_loop_true. tauto.
  - split; [discriminate|]. intros [H _]; discriminate.
  - split; [discriminate|]. intros [H _]; discriminate.
Qed.

(** ** The degenerate bounding box *)

Lemma bbox_ring_nil (box : BBox) : bbox_ring box [] = box.
Proof. reflexivity. Qed.

Lemma bbox_polygon_no_points (box : BBox) (polygon : Polygon) :
  (forall ring, In ring polygon -> ring = []) -> bbox_polygon box polygon = box.
Proof.
  induction polygon as [|ring rest IH]; intros H; [reflexivity|].
  cbn [bbox_polygon fold_left].
  rewrite (H ring (or_introl eq_refl)), bbox_ring_nil.
  apply IH. intros r Hr. apply H. now right.
Qed.

Lemma polygon_bbox_no_points (polys : list Polygon) :
  (forall polygon ring, In polygon polys -> In ring polygon -> ring = []) ->
  polygon_bbox polys = empty_bbox.
Proof.
  unfold polygon_bbox. generalize empty_bbox as box.
  induction polys as [|polygon rest IH]; intros box H; [reflexivity|].
  cbn [fold_left]. rewrite bbox_polygon_no_points.
  - apply IH. intros p r Hp. apply H. now right.
  - intros r. apply H. now left.
Qed.

(** Whatever the point, unless both its coordinates are NaN, the
    comparison against the degenerate box rejects it. *)
Lemma empty_bbox_rejects (point : Point) :
  is_nan (fst point) = false \/ is_nan (snd point) = false ->
  bbox_rejects empty_bbox point = true.
Proof.
  destruct point as [x y]. cbn [fst snd].
  unfold bbox_rejects, empty_bbox, gtb, ltb, SFltb.
  intros [H|H].
  - destruct x as [[|]|[|]| |[|] m e]; try discriminate; reflexivity.
  - destruct y as [[|]|[|]| |[|] m e]; try discriminate;
      now rewrite ?orb_true_r.
Qed.

Lemma covers_min_le_max (lo hi v : float) : within lo hi v -> leb lo hi = true.
Proof. intros [H1 H2]. eapply leb_trans; eassumption. Qed.

(** C9, as the code has it: over an input with no point [polygon_bbox]
    returns (+inf, +inf, -inf, -inf); the pruning test of [lookup] rejects
    against that box every point that is not NaN in both coordinates, so
    a feature that carries it is passed over for such a point; over an
    input with at least one point that is NaN in neither coordinate the
    box has [min_x <= max_x] and [min_y <= max_y]. *)
Theorem polygon_bbox_degenerate_or_ordered :
  (forall polys : list Polygon,
      (forall polygon ring, In polygon polys -> In ring polygon -> ring = []) ->
      polygon_bbox polys = empty_bbox) /\
  (forall (feature : GeoFeature) (rest : list GeoFeature) (point : Point),
      bbox feature = empty_bbox ->
      is_nan (fst point) = false \/ is_nan (snd point) = false ->
      bbox_rejects (bbox feature) point = true /\
      lookup (feature :: rest) point = lookup rest point) /\
  (forall (polys : list Polygon) (polygon : Polygon) (ring : Ring) (p : Point),
      In polygon polys -> In ring polygon -> In p ring ->
      is_nan (fst p) = false -> is_nan (snd p) = false ->
      leb (min_x (polygon_bbox polys)) (max_x (polygon_bbox polys)) = true /\
      leb (min_y (polygon_bbox polys)) (max_y (polygon_bbox polys)) = true).
Proof.
  split; [exact polygon_bbox_no_points|]. split.
  - intros feature rest point Hbox Hx.
    assert (Hrej : bbox_rejects (bbox feature) point = true)
      by (rewrite Hbox; now apply empty_bbox_rejects).
    split; [exact Hrej|]. cbn [lookup]. now rewrite Hrej.
  - intros polys polygon ring p Hpoly Hring Hp Hx Hy. split.
    + apply covers_min_le_max with (v := fst p).
      now apply polygon_bbox_covers_x with (ring := ring) (polygon := polygon).
    + apply covers_min_le_max with (v := snd p).
      now apply polygon_bbox_covers_y with (ring := ring) (polygon := polygon).
Qed.

Lemma polygon_bbox_degenerate_or_ordered_witness :
  polygon_bbox [[[]]] = empty_bbox /\
  (bbox_rejects empty_bbox (pt 3 7) = true /\
   lookup [mkGeoFeature empty_bbox [[[]]] VNone] (pt 3 7) = lookup [] (pt 3 7)) /\
  (leb (min_x (polygon_bbox [[unit_square]])) (max_x (polygon_bbox [[unit_square]])) = true /\
   leb (min_y (polygon_bbox [[unit_square]])) (max_y (polygon_bbox [[unit_square]])) = true).
Proof.
  destruct polygon_bbox_degenerate_or_ordered as (H1 & H2 & H3).
  split; [|split].
  - apply H1. intros polygon ring [<-|[]] [<-|[]]. reflexivity.
  - apply (H2 (mkGeoFeature empty_bbox [[[]]] VNone) [] (pt 3 7));
      [reflexivity|left; reflexivity].
  - apply (H3 [[unit_square]] [unit_square] unit_square (pt 0 0));
      try reflexivity; cbn; auto.
Defined.

(** The claim of C9 fails on NaN: the record with the ring of NaN is
    kept with the degenerate box, that box does not reject the point
    (NaN, NaN), every comparison with a NaN being false, and [lookup]
    returns the properties of the feature at that point; and over the one
    point (NaN, 1) the box keeps [min_x = +inf] above [max_x = -inf]. *)
Lemma nan_passes_degenerate_box :
  GeoFeatureIndex_init no_str_float [nan_record] = Ok [nan_feature] /\
  bbox nan_feature = empty_bbox /\
  bbox_rejects empty_bbox nan_point = false /\
  lookup [nan_feature] nan_point = Ok (VDict [("name", VStr "Nowhere")]) /\
  polygon_bbox [[half_nan_ring]] = (inf, of_Z 1, neg_inf, of_Z 1) /\
  leb (min_x (polygon_bbox [[half_nan_ring]]))
      (max_x (polygon_bbox [[half_nan_ring]])) = false.
Proof. evaluate. Qed.

(** ** Index construction and lookup, feature by feature *)

Lemma bind_Ok_inv {A B : Type} (r : result A) (k : A -> result B) (b : B) :
  bind r k = Ok b -> exists a, r = Ok a /\ k a = Ok b.
Proof. destruct r as [a|e]; cbn; [eauto|discriminate]. Qed.

Lemma bind_Raise_inv {A B : Type} (r : result A) (k : A -> result B) (e : exn) :
  bind r k = Raise e -> r = Raise e \/ exists a, r = Ok a /\ k a = Raise e.
Proof. destruct r as [a|e']; cbn; [eauto|intros [= ->]; now left]. Qed.

Section IndexFacts.

Variable float_of_str : string -> option float.

Local Abbreviation index_entry := (index_entry float_of_str).
Local Abbreviation init_loop := (init_loop float_of_str).
Local Abbreviation GeoFeatureIndex_init := (GeoFeatureIndex_init float_of_str).

Lemma init_loop_app (fs1 fs2 : list value) (acc : list GeoFeature) :
  init_loop (fs1 ++ fs2) acc = (acc1 <- init_loop fs1 acc ;; init_loop fs2 acc1).
Proof.
  revert acc. induction fs1 as [|f fs1 IH]; intros acc; [reflexivity|].
  cbn [app init_loop].
  destruct (index_entry f) as [[g|]|e]; cbn [bind]; auto.
Qed.

(** A record the loop passes over leaves the rest of the index as it is. *)
Lemma init_skips (pre post : list value) (feature : value) :
  index_entry feature = Ok None ->
  GeoFeatureIndex_init (pre ++ feature :: post) = GeoFeatureIndex_init (pre ++ post).
Proof.
  intros H. unfold GeoFeatureIndex_init. rewrite !init_loop_app.
  destruct (init_loop pre []) as [acc|e]; cbn [bind init_loop]; [|reflexivity].
  now rewrite H.
Qed.

(** A record on which the loop raises ends the construction. *)
Lemma init_raises (pre post : list value) (feature : value)
      (acc : list GeoFeature) (e : exn) :
  index_entry feature = Raise e ->
  GeoFeatureIndex_init pre = Ok acc ->
  GeoFeatureIndex_init (pre ++ feature :: post) = Raise e.
Proof.
  unfold GeoFeatureIndex_init. intros H Hpre. rewrite init_loop_app, Hpre.
  cbn [bind init_loop]. now rewrite H.
Qed.

(** The index is the kept entries, in the order of the records. *)
Lemma init_loop_acc (fs : list value) (acc : list GeoFeature) :
  init_loop fs acc = (entries <- init_loop fs [] ;; Ok (acc ++ entries)).
Proof.
  revert acc. induction fs as [|f fs IH]; intros acc; cbn [init_loop bind].
  - now rewrite app_nil_r.
  - destruct (index_entry f) as [[g|]|e]; cbn [bind]; auto.
    rewrite (IH (acc ++ [g])), (IH ([] ++ [g])).
    destruct (init_loop fs []) as [entries|e]; cbn [bind]; [|reflexivity].
    now rewrite <- app_assoc.
Qed.

Lemma init_cons_kept (feature : value) (rest : list value) (f : GeoFeature) :
  index_entry feature = Ok (Some f) ->
  GeoFeatureIndex_init (feature :: rest) =
    (entries <- GeoFeatureIndex_init rest ;; Ok (f :: entries)).
Proof.
  intros H. unfold GeoFeatureIndex_init. cbn [init_loop]. rewrite H.
  cbn [bind]. now rewrite init_loop_acc.
Qed.

End IndexFacts.

Lemma lookup_cons (feature : GeoFeature) (rest : list GeoFeature) (point : Point) :
  lookup (feature :: rest) point =
    (hit <- feature_matches feature point ;;
     if hit then Ok (properties feature) else lookup rest point).
Proof.
  cbn [lookup]. unfold feature_matches.
  destruct (bbox_rejects (bbox feature) point); reflexivity.
Qed.

Lemma lookup_passes (pre post : list GeoFeature) (point : Point) :
  Forall (fun f => feature_matches f point = Ok false) pre ->
  lookup (pre ++ post) point = lookup post point.
Proof.
  induction 1 as [|f pre Hf _ IH]; [reflexivity|].
  cbn [app]. now rewrite lookup_cons, Hf.
Qed.

Lemma lookup_without (pre post : list GeoFeature) (feature : GeoFeature) (point : Point) :
  feature_matches feature point = Ok false ->
  lookup (pre ++ feature :: post) point = lookup (pre ++ post) point.
Proof.
  intros H. induction pre as [|f pre IH]; cbn [app].
  - now rewrite lookup_cons, H.
  - now rewrite !lookup_cons, IH.
Qed.

(** ** Empty coordinates *)

(** C10: the geometry {"type": "Polygon", "coordinates": []} extracts to
    one polygon with no ring; a feature carrying it is kept in the index,
    with the degenerate box, and no lookup returns through it: for every
    point the index answers as it would without the feature, and
    [point_in_polygon] on the polygon with no ring is false. *)
Theorem empty_coordinates_kept_never_matched
        (float_of_str : string -> option float) (fd : list (string * value)) :
  dict_get fd "geometry" = Some empty_polygon_geometry ->
  extract_polygons float_of_str empty_polygon_geometry = Ok [[]] /\
  (forall point, point_in_polygon point [] = Ok false) /\
  exists f : GeoFeature,
    index_entry float_of_str (VDict fd) = Ok (Some f) /\
    GeoFeatureIndex_init float_of_str [VDict fd] = Ok [f] /\
    polygons f = [[]] /\
    bbox f = empty_bbox /\
    forall (pre post : list GeoFeature) (point : Point),
      lookup (pre ++ f :: post) point = lookup (pre ++ post) point.
Proof.
  intros Hg. split; [reflexivity|]. split; [reflexivity|].
  assert (He : index_entry float_of_str (VDict fd) =
               Ok (Some (mkGeoFeature empty_bbox [[]]
                           match dict_get fd "properties" with
                           | Some v => v
                           | None => VDict []
                           end))).
  { unfold index_entry. cbn [py_get bind]. rewrite Hg. reflexivity. }
  eexists. split; [exact He|]. split; [|split; [reflexivity|split; [reflexivity|]]].
  - rewrite init_cons_kept with (f := mkGeoFeature empty_bbox [[]]
      match dict_get fd "properties" with Some v => v | None => VDict [] end)
      by exact He.
    reflexivity.
  - intros pre post point. apply lookup_without.
    unfold feature_matches. cbn [bbox polygons].
    destruct (bbox_rejects empty_bbox point); reflexivity.
Qed.

Lemma empty_coordinates_kept_never_matched_witness :
  extract_polygons no_str_float empty_polygon_geometry = Ok [[]] /\
  (forall point, point_in_polygon point [] = Ok false) /\
  exists f : GeoFeature,
    index_entry no_str_float
      (VDict [("geometry", empty_polygon_geometry);
              ("properties", VDict [("name", VStr "Void")])]) = Ok (Some f) /\
    GeoFeatureIndex_init no_str_float
      [VDict [("geometry", empty_polygon_geometry);
              ("properties", VDict [("name", VStr "Void")])]] = Ok [f] /\
    polygons f = [[]] /\
    bbox f = empty_bbox /\
    forall (pre post : list GeoFeature) (point : Point),
      lookup (pre ++ f :: post) point = lookup (pre ++ post) point.
Proof.
  apply (empty_coordinates_kept_never_matched no_str_float
           [("geometry", empty_polygon_geometry);
            ("properties", VDict [("name", VStr "Void")])]).
  reflexivity.
Defined.

(** ** Geometry that yields no polygon *)

Lemma eq_str_false (v : value) (s : string) : v <> VStr s -> eq_str v s = false.
Proof.
  destruct v; cbn; try reflexivity.
  intros H. apply String.eqb_neq. congruence.
Qed.

Lemma truthy_dict_or_empty (d : list (string * value)) :
  (if truthy (VDict d) then VDict d else VDict []) = VDict d.
Proof. now destruct d. Qed.

Section Skipping.

Variable float_of_str : string -> option float.

Lemma index_entry_dict (fd : list (string * value)) :
  index_entry float_of_str (VDict fd) =
    (polys <- extract_polygons float_of_str (feature_geometry fd) ;;
     match polys with
     | [] => Ok None
     | _ =>
         Ok (Some (mkGeoFeature (polygon_bbox polys) polys
                     match dict_get fd "properties" with
                     | Some v => v
                     | None => VDict []
                     end))
     end).
Proof.
  unfold index_entry, feature_geometry. cbn [py_get bind].
  destruct (dict_get fd "geometry") as [g|]; cbn [truthy]; reflexivity.
Qed.

Lemma extract_unsupported (gd : list (string * value)) :
  unsupported_geometry gd -> extract_polygons float_of_str (VDict gd) = Ok [].
Proof.
  unfold extract_polygons. cbn [py_get bind].
  intros [Ht|[(t & Ht & Hp & Hm)|Hc]].
  - rewrite Ht. reflexivity.
  - rewrite Ht, (eq_str_false _ _ Hp), (eq_str_false _ _ Hm).
    now destruct (negb (truthy t) || _).
  - rewrite Hc. cbn [is_None]. now rewrite orb_true_r.
Qed.

(** C6: a geometry record without [type], with any [type] other than
    "Polygon" and "MultiPolygon", or without [coordinates], extracts to
    the empty list, with no exception; a feature record that carries it adds
    no entry, and the index is built as if the record were not there. *)
Theorem unsupported_geometry_is_skipped (gd : list (string * value)) :
  unsupported_geometry gd ->
  extract_polygons float_of_str (VDict gd) = Ok [] /\
  forall fd : list (string * value),
    dict_get fd "geometry" = Some (VDict gd) ->
    index_entry float_of_str (VDict fd) = Ok None /\
    forall pre post : list value,
      GeoFeatureIndex_init float_of_str (pre ++ VDict fd :: post) =
      GeoFeatureIndex_init float_of_str (pre ++ post).
Proof.
  intros Hu. pose proof (extract_unsupported gd Hu) as Hex.
  split; [exact Hex|]. intros fd Hg.
  assert (He : index_entry float_of_str (VDict fd) = Ok None).
  { rewrite index_entry_dict. unfold feature_geometry.
    rewrite Hg, truthy_dict_or_empty, Hex. reflexivity. }
  split; [exact He|]. intros pre post. now apply init_skips.
Qed.

(** C8, as the code has it: a feature record whose geometry extracts to
    no polygon is passed over and the index is built from the other
    records, in their order; a feature record on whose geometry the
    extraction raises ends the construction with that exception. *)
Theorem bad_feature_skipped_or_raised (fd : list (string * value))
        (pre post : list value) :
  (extract_polygons float_of_str (feature_geometry fd) = Ok [] ->
   GeoFeatureIndex_init float_of_str (pre ++ VDict fd :: post) =
   GeoFeatureIndex_init float_of_str (pre ++ post)) /\
  (forall (e : exn) (acc : list GeoFeature),
      extract_polygons float_of_str (feature_geometry fd) = Raise e ->
      GeoFeatureIndex_init float_of_str pre = Ok acc ->
      GeoFeatureIndex_init float_of_str (pre ++ VDict fd :: post) = Raise e).
Proof.
  split.
  - intros H. apply init_skips. now rewrite index_entry_dict, H.
  - intros e acc H Hpre. apply init_raises with (acc := acc); [|exact Hpre].
    now rewrite index_entry_dict, H.
Qed.

End Skipping.

Lemma unsupported_geometry_is_skipped_witness :
  extract_polygons no_str_float (VDict point_geometry) = Ok [] /\
  forall fd : list (string * value),
    dict_get fd "geometry" = Some (VDict point_geometry) ->
    index_entry no_str_float (VDict fd) = Ok None /\
    forall pre post : list value,
      GeoFeatureIndex_init no_str_float (pre ++ VDict fd :: post) =
      GeoFeatureIndex_init no_str_float (pre ++ post).
Proof.
  apply (unsupported_geometry_is_skipped no_str_float point_geometry).
  right; left. exists (VStr "Point"). repeat split; discriminate.
Defined.

(** The claim of C8 fails: the record with the coordinate "abc" ends the
    construction, though the index of the other record alone is built. *)
Lemma bad_feature_aborts_construction :
  GeoFeatureIndex_init no_str_float [north; VDict abc_feature] = Raise ValueError /\
  GeoFeatureIndex_init no_str_float [north] = Ok [north_entry].
Proof. evaluate. Qed.

Lemma bad_feature_skipped_or_raised_witness :
  (GeoFeatureIndex_init no_str_float ([north] ++ VDict point_feature :: [north]) =
   GeoFeatureIndex_init no_str_float ([north] ++ [north])) /\
  (GeoFeatureIndex_init no_str_float ([north] ++ VDict abc_feature :: [north])
   = Raise ValueError).
Proof.
  split.
  - apply (bad_feature_skipped_or_raised no_str_float point_feature [north] [north]).
    reflexivity.
  - apply (proj2 (bad_feature_skipped_or_raised no_str_float abc_feature
                    [north] [north]) ValueError [north_entry]).
    + reflexivity.
    + vm_compute. reflexivity.
Defined.

(** ** Coordinate entries the extraction cannot read *)

Lemma mapM_In_raises {A B : Type} (f : A -> result B) (l : list A) (a : A) :
  In a l -> raises (f a) -> raises (mapM f l).
Proof.
  intros Hin [e He]. induction l as [|x l IH]; [destruct Hin|].
  cbn [mapM]. destruct Hin as [->|Hin].
  - rewrite He. now exists e.
  - destruct (f x) as [b|e']; cbn [bind]; [|now exists e'].
    destruct (IH Hin) as [e' ->]. now exists e'.
Qed.

Lemma mapM_Raise_inv {A B : Type} (f : A -> result B) (l : list A) (e : exn) :
  mapM f l = Raise e -> exists a, In a l /\ f a = Raise e.
Proof.
  induction l as [|x l IH]; cbn [mapM]; [discriminate|].
  destruct (f x) as [b|e'] eqn:Ex; cbn [bind].
  - destruct (mapM f l) as [bs|e'']; cbn [bind]; [discriminate|].
    intros [= ->]. destruct (IH eq_refl) as (a & Ha & Hfa).
    exists a. split; [now right|exact Hfa].
  - intros [= ->]. exists x. split; [now left|exact Ex].
Qed.

Lemma iterate_error (v : value) (e : exn) : iterate v = Raise e -> conversion_error e.
Proof. destruct v; cbn; intros [= <-]; unfold conversion_error; auto. Qed.

Lemma iterate_not_None (v : value) (l : list value) : iterate v = Ok l -> is_None v = false.
Proof. destruct v; cbn; congruence. Qed.

Section Conversion.

Variable float_of_str : string -> option float.

Lemma py_float_error (v : value) (e : exn) :
  py_float float_of_str v = Raise e -> conversion_error e.
Proof.
  unfold conversion_error.
  destruct v; cbn; try (intros [= <-]; auto).
  - unfold float_of_int. destruct (is_inf (of_Z z)); intros [= <-]; auto.
  - destruct (float_of_str s); intros [= <-]; auto.
Qed.

Lemma unpack2_error (v : value) (e : exn) : unpack2 v = Raise e -> conversion_error e.
Proof.
  unfold unpack2. destruct (iterate v) as [items|e'] eqn:E; cbn [bind].
  - destruct items as [|x [|y [|z l]]]; intros [= <-]; unfold conversion_error; auto.
  - intros [= ->]. now apply iterate_error with (v := v).
Qed.

Lemma convert_entry_error (entry : value) (e : exn) :
  convert_entry float_of_str entry = Raise e -> conversion_error e.
Proof.
  unfold convert_entry. destruct (unpack2 entry) as [[x y]|e'] eqn:E; cbn [bind].
  - destruct (py_float float_of_str x) as [fx|e'] eqn:Ex; cbn [bind].
    + destruct (py_float float_of_str y) as [fy|e'] eqn:Ey; cbn [bind].
      * discriminate.
      * intros [= ->]. now apply py_float_error with (v := y).
    + intros [= ->]. now apply py_float_error with (v := x).
  - intros [= ->]. now apply unpack2_error with (v := entry).
Qed.

Lemma convert_ring_error (ring : value) (e : exn) :
  convert_ring float_of_str ring = Raise e -> conversion_error e.
Proof.
  unfold convert_ring. intros H.
  apply bind_Raise_inv in H as [H|(entries & _ & H)].
  - now apply iterate_error with (v := ring).
  - apply mapM_Raise_inv in H as (entry & _ & H).
    now apply convert_entry_error with (entry := entry).
Qed.

Lemma convert_polygon_error (coords : value) (e : exn) :
  convert_polygon float_of_str coords = Raise e -> conversion_error e.
Proof.
  unfold convert_polygon. intros H.
  apply bind_Raise_inv in H as [H|(rings & _ & H)].
  - now apply iterate_error with (v := coords).
  - apply mapM_Raise_inv in H as (ring & _ & H).
    now apply convert_ring_error with (ring := ring).
Qed.

Lemma extract_polygons_error (gd : list (string * value)) (e : exn) :
  extract_polygons float_of_str (VDict gd) = Raise e -> conversion_error e.
Proof.
  unfold extract_polygons. cbn [py_get bind].
  destruct (negb (truthy _) || _); [discriminate|].
  destruct (eq_str _ "Polygon").
  - intros H. apply bind_Raise_inv in H as [H|(polygon & _ & H)]; [|discriminate].
    now apply convert_polygon_error in H.
  - destruct (eq_str _ "MultiPolygon"); [|discriminate].
    intros H. apply bind_Raise_inv in H as [H|(polys & _ & H)].
    + now apply iterate_error in H.
    + apply mapM_Raise_inv in H as (poly & _ & H).
      now apply convert_polygon_error in H.
Qed.

Lemma convert_polygon_raises (coords entry : value) :
  polygon_entry coords entry ->
  raises (convert_entry float_of_str entry) ->
  raises (convert_polygon float_of_str coords).
Proof.
  intros (rings & ring & entries & Hc & Hring & Hr & Hentry) Hraise.
  unfold convert_polygon. rewrite Hc. cbn [bind].
  apply mapM_In_raises with (a := ring); [exact Hring|].
  unfold convert_ring. rewrite Hr. cbn [bind].
  now apply mapM_In_raises with (a := entry).
Qed.

Lemma extract_polygons_raises (gd : list (string * value)) (entry : value) :
  coordinate_entry gd entry ->
  raises (convert_entry float_of_str entry) ->
  raises (extract_polygons float_of_str (VDict gd)).
Proof.
  intros (coords & Hc & [[Ht Hp]|(Ht & polys & poly & Hi & Hin & Hp)]) Hraise;
    unfold extract_polygons; cbn [py_get bind]; rewrite Ht, Hc.
  - destruct Hp as (rings & ring & entries & Hp).
    rewrite (iterate_not_None coords rings) by tauto.
    cbn [truthy eq_str negb orb String.eqb Ascii.eqb Bool.eqb].
    destruct (convert_polygon_raises coords entry) as [e He]; [|exact Hraise|].
    + now exists rings, ring, entries.
    + rewrite He. now exists e.
  - rewrite (iterate_not_None coords polys) by tauto.
    cbn [truthy eq_str negb orb String.eqb Ascii.eqb Bool.eqb]. rewrite Hi. cbn [bind].
    apply mapM_In_raises with (a := poly); [exact Hin|].
    now apply convert_polygon_raises with (entry := entry).
Qed.

End Conversion.

Section BadEntries.

Variable float_of_str : string -> option float.

Lemma convert_entry_bad_component (entry c : value) (comps : list value) :
  iterate entry = Ok comps -> In c comps ->
  raises (py_float float_of_str c) ->
  raises (convert_entry float_of_str entry).
Proof.
  intros Hi Hin [e He]. unfold convert_entry, unpack2. rewrite Hi. cbn [bind].
  destruct comps as [|x [|y [|z l]]]; try (now exists ValueError).
  cbn [bind]. destruct Hin as [->|[->|[]]].
  - rewrite He. now exists e.
  - destruct (py_float float_of_str x) as [fx|e']; cbn [bind]; [|now exists e'].
    rewrite He. now exists e.
Qed.

Lemma convert_entry_extra_components (entry : value) (comps : list value) :
  iterate entry = Ok comps -> (2 < List.length comps)%nat ->
  convert_entry float_of_str entry = Raise ValueError.
Proof.
  intros Hi Hlen. unfold convert_entry, unpack2. rewrite Hi. cbn [bind].
  destruct comps as [|x [|y [|z l]]]; cbn in Hlen; try lia. reflexivity.
Qed.

(** C7: when a coordinate entry of a geometry record of a supported type
    has a component that [float] cannot convert, [extract_polygons] raises
    a conversion exception, and so does the construction of an index over
    a feature record that carries the geometry: the exception is the
    result of the construction, whatever records follow. *)
Theorem non_numeric_coordinate_propagates
        (gd : list (string * value)) (entry c : value) (comps : list value) :
  coordinate_entry gd entry ->
  iterate entry = Ok comps -> In c comps ->
  raises (py_float float_of_str c) ->
  exists e : exn,
    extract_polygons float_of_str (VDict gd) = Raise e /\
    conversion_error e /\
    forall (fd : list (string * value)) (pre post : list value)
           (acc : list GeoFeature),
      dict_get fd "geometry" = Some (VDict gd) ->
      GeoFeatureIndex_init float_of_str pre = Ok acc ->
      GeoFeatureIndex_init float_of_str (pre ++ VDict fd :: post) = Raise e.
Proof.
  intros Hentry Hi Hin Hc.
  destruct (extract_polygons_raises float_of_str gd entry Hentry) as [e He].
  { now apply convert_entry_bad_component with (c := c) (comps := comps). }
  exists e. split; [exact He|]. split.
  - now apply (extract_polygons_error float_of_str gd).
  - intros fd pre post acc Hg Hpre.
    apply init_raises with (acc := acc); [|exact Hpre].
    rewrite index_entry_dict. unfold feature_geometry.
    now rewrite Hg, truthy_dict_or_empty, He.
Qed.

(** C2, as the code has it: a coordinate entry with more than two
    components is not read by its first two; the unpacking [for x, y in
    ring] rejects it, and [extract_polygons] raises on every geometry
    record of a supported type that has such an entry. *)
Theorem extra_components_are_rejected
        (gd : list (string * value)) (entry : value) (comps : list value) :
  coordinate_entry gd entry ->
  iterate entry = Ok comps -> (2 < List.length comps)%nat ->
  convert_entry float_of_str entry = Raise ValueError /\
  exists e : exn,
    extract_polygons float_of_str (VDict gd) = Raise e /\ conversion_error e.
Proof.
  intros Hentry Hi Hlen.
  pose proof (convert_entry_extra_components entry comps Hi Hlen) as Hc.
  split; [exact Hc|].
  destruct (extract_polygons_raises float_of_str gd entry Hentry) as [e He].
  { rewrite Hc. now exists ValueError. }
  exists e. split; [exact He|]. now apply (extract_polygons_error float_of_str gd).
Qed.

End BadEntries.

Lemma abc_entry : coordinate_entry abc_geometry (VList [VStr "abc"; VInt 0]).
Proof.
  eexists. split; [reflexivity|]. left. split; [reflexivity|].
  eexists _, _, _. split; [reflexivity|]. split; [left; reflexivity|].
  split; [reflexivity|]. right; left; reflexivity.
Defined.

Lemma non_numeric_coordinate_propagates_witness :
  exists e : exn,
    extract_polygons no_str_float (VDict abc_geometry) = Raise e /\
    conversion_error e /\
    forall (fd : list (string * value)) (pre post : list value)
           (acc : list GeoFeature),
      dict_get fd "geometry" = Some (VDict abc_geometry) ->
      GeoFeatureIndex_init no_str_float pre = Ok acc ->
      GeoFeatureIndex_init no_str_float (pre ++ VDict fd :: post) = Raise e.
Proof.
  apply (non_numeric_coordinate_propagates no_str_float abc_geometry
           (VList [VStr "abc"; VInt 0]) (VStr "abc") [VStr "abc"; VInt 0]).
  - exact abc_entry.
  - reflexivity.
  - left; reflexivity.
  - exists ValueError. reflexivity.
Defined.

(** The claim of C2 fails: on entries [x, y, z] the extraction raises,
    for a Polygon and for a MultiPolygon. *)
Lemma extra_components_raise_ValueError :
  extract_polygons no_str_float (VDict xyz_polygon) = Raise ValueError /\
  extract_polygons no_str_float (VDict xyz_multipolygon) = Raise ValueError.
Proof. split; vm_compute; reflexivity. Qed.

(** With two components per entry the same square is read. *)
Example two_components_are_read :
  extract_polygons no_str_float (polygon_geometry (square_coords 0 0 4 4))
  = Ok [[square_ring]].
Proof. vm_compute. reflexivity. Qed.

Lemma xyz_entry : coordinate_entry xyz_multipolygon (VList [VInt 4; VInt 0; VInt 5]).
Proof.
  eexists. split; [reflexivity|]. right. split; [reflexivity|].
  eexists _, _. split; [reflexivity|]. split; [left; reflexivity|].
  eexists _, _, _. split; [reflexivity|]. split; [left; reflexivity|].
  split; [reflexivity|]. right; left; reflexivity.
Defined.

Lemma extra_components_are_rejected_witness :
  convert_entry no_str_float (VList [VInt 4; VInt 0; VInt 5]) = Raise ValueError /\
  exists e : exn,
    extract_polygons no_str_float (VDict xyz_multipolygon) = Raise e /\
    conversion_error e.
Proof.
  apply (extra_components_are_rejected no_str_float xyz_multipolygon
           (VList [VInt 4; VInt 0; VInt 5]) [VInt 4; VInt 0; VInt 5]).
  - exact xyz_entry.
  - reflexivity.
  - cbn. lia.
Defined.

(** ** First match wins *)

Section FirstMatch.

Variable float_of_str : string -> option float.

(** Every entry of the index comes from a record of the input. *)
Lemma init_In (fs : list value) (idx : list GeoFeature) (f : GeoFeature) :
  GeoFeatureIndex_init float_of_str fs = Ok idx -> In f idx ->
  exists r, In r fs /\ index_entry float_of_str r = Ok (Some f).
Proof.
  revert idx. induction fs as [|r fs IH]; intros idx.
  - intros [= <-] [].
  - destruct (index_entry float_of_str r) as [[g|]|e] eqn:Er.
    + rewrite (init_cons_kept float_of_str r fs g Er).
      destruct (GeoFeatureIndex_init float_of_str fs) as [entries|e];
        cbn [bind]; [|discriminate].
      intros [= <-] [->|Hin].
      * exists r. split; [now left|exact Er].
      * destruct (IH entries eq_refl Hin) as (r' & Hr' & He).
        exists r'. split; [now right|exact He].
    + unfold GeoFeatureIndex_init. cbn [init_loop]. rewrite Er. cbn [bind].
      intros H Hin. destruct (IH idx H Hin) as (r' & Hr' & He).
      exists r'. split; [now right|exact He].
    + unfold GeoFeatureIndex_init. cbn [init_loop]. rewrite Er. discriminate.
Qed.

(** The index around a kept record: the entries of the records before
    it, its own entry, the entries of the records after it. *)
Lemma init_split (before after : list value) (a : value) (A : GeoFeature)
      (idx : list GeoFeature) :
  GeoFeatureIndex_init float_of_str (before ++ a :: after) = Ok idx ->
  index_entry float_of_str a = Ok (Some A) ->
  exists pre post,
    GeoFeatureIndex_init float_of_str before = Ok pre /\
    GeoFeatureIndex_init float_of_str after = Ok post /\
    idx = pre ++ A :: post.
Proof.
  unfold GeoFeatureIndex_init. rewrite init_loop_app. intros H Ha.
  apply bind_Ok_inv in H as (pre & Hpre & H).
  cbn [init_loop] in H. rewrite Ha in H. cbn [bind] in H.
  rewrite init_loop_acc in H.
  apply bind_Ok_inv in H as (post & Hpost & [= <-]).
  exists pre, post. split; [exact Hpre|]. split; [exact Hpost|].
  now rewrite <- app_assoc.
Qed.

(** C3, as the code has it: [lookup] returns the properties of the first
    record, in the order of the input, whose entry matches the point, a
    match being what [lookup] tests: the bounding box of the entry does
    not reject the point and one of its polygons contains it.  Records
    after it, matching or not, do not matter. *)
Theorem lookup_returns_earliest_match
        (before after : list value) (a : value) (A : GeoFeature)
        (idx : list GeoFeature) (point : Point) :
  GeoFeatureIndex_init float_of_str (before ++ a :: after) = Ok idx ->
  index_entry float_of_str a = Ok (Some A) ->
  (forall r f, In r before -> index_entry float_of_str r = Ok (Some f) ->
               feature_matches f point = Ok false) ->
  feature_matches A point = Ok true ->
  lookup idx point = Ok (properties A).
Proof.
  intros Hidx Ha Hbefore HA.
  destruct (init_split before after a A idx Hidx Ha)
    as (pre & post & Hpre & _ & ->).
  rewrite lookup_passes.
  - now rewrite lookup_cons, HA.
  - apply Forall_forall. intros f Hf.
    destruct (init_In before pre f Hpre Hf) as (r & Hr & He).
    now apply (Hbefore r f).
Qed.

End FirstMatch.

(** The claim of C3 fails: the point is in the polygon of both features,
    by [point_in_polygon], the upper one comes first in the input, and
    [lookup] returns the properties of the lower one: the box of the upper
    one rejects the point. *)
Lemma lookup_passes_over_earlier_container :
  GeoFeatureIndex_init no_str_float [upper_record; lower_record] = Ok [upper; lower] /\
  point_in_polygon just_below [upper_ring] = Ok true /\
  point_in_polygon just_below [lower_ring] = Ok true /\
  lookup [upper; lower] just_below = Ok (VDict [("name", VStr "Lower")]) /\
  lookup [upper; lower] just_below <> Ok (properties upper).
Proof.
  evaluate. vm_compute. discriminate.
Qed.

Lemma lookup_returns_earliest_match_witness :
  lookup [far; upper; lower] (pt 2 0) = Ok (properties upper).
Proof.
  apply (lookup_returns_earliest_match no_str_float [far_record] [lower_record]
           upper_record upper [far; upper; lower] (pt 2 0)).
  - vm_compute. reflexivity.
  - vm_compute. reflexivity.
  - intros r f [<-|[]] H. vm_compute in H. injection H as <-.
    vm_compute. reflexivity.
  - vm_compute. reflexivity.
Defined.

(** On the shared edge both squares match, and the first one is returned. *)
Example shared_edge_first_wins :
  feature_matches upper (pt 2 0) = Ok true /\
  feature_matches lower (pt 2 0) = Ok true /\
  lookup [upper; lower] (pt 2 0) = Ok (properties upper) /\
  lookup [lower; upper] (pt 2 0) = Ok (properties lower).
Proof. evaluate. Qed.

(** ** Bounding-box pruning against the containment test *)

Lemma sub_nan_l (b : float) : sub S754_nan b = S754_nan.
Proof. reflexivity. Qed.

Lemma sub_nan_r (a : float) : sub a S754_nan = S754_nan.
Proof. now destruct a. Qed.

Lemma mul_nan_l (b : float) : mul S754_nan b = S754_nan.
Proof. reflexivity. Qed.

Lemma mul_nan_r (a : float) : mul a S754_nan = S754_nan.
Proof. now destruct a. Qed.

Lemma add_nan_r (a : float) : add a S754_nan = S754_nan.
Proof. now destruct a. Qed.

Lemma ltb_nan_l (b : float) : ltb S754_nan b = false.
Proof. reflexivity. Qed.

Lemma ltb_nan_r (a : float) : ltb a S754_nan = false.
Proof. now destruct a. Qed.

Lemma is_nan_eq (a : float) : is_nan a = true -> a = S754_nan.
Proof. destruct a; cbn; congruence. Qed.

(** An edge with a NaN among its [y] never answers false: the tests of
    [_point_on_segment] all fail on NaN. *)
Lemma on_segment_false_y_numbers (point a b : Point) (epsilon : float) :
  _point_on_segment point a b epsilon = Ok false ->
  is_nan (snd a) = false /\ is_nan (snd b) = false.
Proof.
  destruct point as [x y], a as [x1 y1], b as [x2 y2]. cbn [fst snd].
  intros H.
  assert (Hd : is_nan (sub y2 y1) = false).
  { destruct (is_nan (sub y2 y1)) eqn:E; [exfalso|reflexivity].
    apply is_nan_eq in E. unfold _point_on_segment in H. rewrite E in H.
    rewrite !mul_nan_r, sub_nan_l, add_nan_r in H. cbn [abs SFabs] in H.
    unfold gtb in H. rewrite ltb_nan_r, ltb_nan_l in H.
    destruct (pow2 (sub x2 x1)) as [sx|e]; cbn [bind] in H; [|discriminate].
    unfold pow2 in H. rewrite mul_nan_l in H. cbn [is_finite andb bind] in H.
    rewrite add_nan_r, ltb_nan_l in H. discriminate. }
  split.
  - destruct (is_nan y1) eqn:E; [|reflexivity].
    apply is_nan_eq in E. subst y1. now rewrite sub_nan_r in Hd.
  - destruct (is_nan y2) eqn:E; [|reflexivity].
    apply is_nan_eq in E. subst y2. now rewrite sub_nan_l in Hd.
Qed.

(** When no edge takes the point for one of its own, a true answer of
    the loop is a parity: the flag was set, or some edge crosses the
    line of the point. *)
Lemma ring_loop_true_crosses (point : Point) (ring : Ring) (idxs : list nat)
      (inside : bool) :
  (forall i, In i idxs ->
     _point_on_segment point (fst (ring_edge ring i)) (snd (ring_edge ring i))
       lit_1e_9 <> Ok true) ->
  ring_loop point ring idxs inside = Ok true ->
  inside = true \/
  exists i, In i idxs /\
    _point_on_segment point (fst (ring_edge ring i)) (snd (ring_edge ring i))
      lit_1e_9 = Ok false /\
    intersects (snd point) (snd (fst (ring_edge ring i)))
               (snd (snd (ring_edge ring i))) = true.
Proof.
  revert inside. induction idxs as [|j rest IH]; intros inside Hno H.
  - cbn in H. left. congruence.
  - assert (Hrest : forall i, In i rest ->
       _point_on_segment point (fst (ring_edge ring i)) (snd (ring_edge ring i))
         lit_1e_9 <> Ok true) by (intros i Hi; apply Hno; now right).
    pose proof (Hno j (or_introl eq_refl)) as Hj.
    cbn [ring_loop] in H.
    destruct (ring_edge ring j) as [a b] eqn:Ej. cbn [fst snd] in Hj.
    destruct (_point_on_segment point a b lit_1e_9) as [[|]|e] eqn:Eon;
      cbn [bind] in H; [congruence| |discriminate].
    destruct point as [x y], a as [x1 y1], b as [x2 y2].
    destruct (intersects y y1 y2) eqn:Ei.
    + right. exists j. rewrite Ej. cbn [fst snd]. auto using in_eq.
    + destruct (IH inside Hrest H) as [Hin|(i & Hi & Hi')]; [now left|].
      right. exists i. split; [now right|exact Hi'].
Qed.

Lemma ring_edge_In (ring : Ring) (i : nat) :
  (i < List.length ring)%nat ->
  In (fst (ring_edge ring i)) ring /\ In (snd (ring_edge ring i)) ring.
Proof.
  intros Hi. unfold ring_edge. cbn [fst snd]. split; apply nth_In; [exact Hi|].
  apply Nat.mod_upper_bound. lia.
Qed.

(** The [y] of a point between the [y] of two vertices is covered by a
    box that covers both. *)
Lemma crossing_covers_y (box : BBox) (y y1 y2 : float) :
  intersects y y1 y2 = true ->
  is_nan y1 = false -> is_nan y2 = false ->
  covers_y y1 box -> covers_y y2 box -> covers_y y box.
Proof.
  unfold intersects, covers_y, within, gtb.
  intros Hi H1 H2 [Ha1 Hb1] [Ha2 Hb2].
  destruct (ltb y y1) eqn:E1, (ltb y y2) eqn:E2; try discriminate.
  - pose proof (ltb_not_nan _ _ E1) as [Hy _].
    apply not_ltb_leb in E2; auto. split.
    + now apply leb_trans with (b := y2).
    + apply ltb_leb. now apply ltb_leb_trans with (b := y1).
  - pose proof (ltb_not_nan _ _ E2) as [Hy _].
    apply not_ltb_leb in E1; auto. split.
    + now apply leb_trans with (b := y1).
    + apply ltb_leb. now apply ltb_leb_trans with (b := y2).
Qed.

(** C1, as the code has it: when [point_in_polygon] answers true by the
    crossing rule, no edge of the outer ring taking the point for one of
    its own, the [y] of the point lies within [min_y, max_y] of the box
    computed over any polygons that include this one, and the two tests
    of the pruning step on [y] do not reject it.  Nothing is said of
    points accepted on an edge, nor of [x]. *)
Theorem ray_cast_hit_within_bbox_y
        (point : Point) (polygon : Polygon) (polys : list Polygon) :
  In polygon polys ->
  point_in_polygon point polygon = Ok true ->
  (forall i, (i < List.length (hd [] polygon))%nat ->
     _point_on_segment point (fst (ring_edge (hd [] polygon) i))
                       (snd (ring_edge (hd [] polygon) i)) lit_1e_9 <> Ok true) ->
  leb (min_y (polygon_bbox polys)) (snd point) = true /\
  leb (snd point) (max_y (polygon_bbox polys)) = true /\
  ltb (snd point) (min_y (polygon_bbox polys)) = false /\
  gtb (snd point) (max_y (polygon_bbox polys)) = false.
Proof.
  intros Hpoly Hin Hno.
  assert (Hcov : covers_y (snd point) (polygon_bbox polys)).
  { destruct polygon as [|outer holes]; [discriminate|].
    cbn [hd] in Hno. cbn [point_in_polygon] in Hin.
    apply bind_Ok_inv in Hin as (in_outer & Hring & Hin).
    destruct in_outer; [clear Hin|discriminate].
    unfold _point_in_ring in Hring.
    destruct (Nat.ltb (List.length outer) 3); [discriminate|].
    apply ring_loop_true_crosses in Hring.
    - destruct Hring as [|(i & Hi & Hfalse & Hcross)]; [discriminate|].
      apply in_seq in Hi. cbn in Hi.
      destruct (ring_edge_In outer i) as [Ha Hb]; [lia|].
      apply on_segment_false_y_numbers in Hfalse as [Hy1 Hy2].
      apply crossing_covers_y with (1 := Hcross); auto.
      + apply polygon_bbox_covers_y with (ring := outer) (polygon := outer :: holes);
          auto using in_eq.
      + apply polygon_bbox_covers_y with (ring := outer) (polygon := outer :: holes);
          auto using in_eq.
    - intros i Hi. apply Hno. apply in_seq in Hi. cbn in Hi. lia. }
  destruct Hcov as [H1 H2]. repeat split; auto.
  - now apply leb_not_ltb.
  - unfold gtb. now apply leb_not_ltb.
Qed.

Lemma ray_cast_hit_within_bbox_y_witness :
  leb (min_y (polygon_bbox [[upper_ring]])) (snd (pt 2 2)) = true /\
  leb (snd (pt 2 2)) (max_y (polygon_bbox [[upper_ring]])) = true /\
  ltb (snd (pt 2 2)) (min_y (polygon_bbox [[upper_ring]])) = false /\
  gtb (snd (pt 2 2)) (max_y (polygon_bbox [[upper_ring]])) = false.
Proof.
  apply (ray_cast_hit_within_bbox_y (pt 2 2) [upper_ring] [[upper_ring]]).
  - left; reflexivity.
  - vm_compute. reflexivity.
  - intros i Hi. destruct i as [|[|[|[|i]]]];
      [vm_compute; discriminate ..|cbn in Hi; lia].
Defined.

(** The claim of C1 fails: the point 2^-40 below the edge from (0,0) to
    (4,0) is on that edge for [_point_on_segment], so [point_in_polygon]
    answers true, while its [y] is below the [min_y] of the box and the
    pruning test rejects it. *)
Lemma pruning_rejects_accepted_point :
  point_in_polygon just_below [upper_ring] = Ok true /\
  polygon_bbox [[upper_ring]] = (of_Z 0, of_Z 0, of_Z 4, of_Z 4) /\
  ltb (snd just_below) (min_y (polygon_bbox [[upper_ring]])) = true /\
  bbox_rejects (polygon_bbox [[upper_ring]]) just_below = true.
Proof. evaluate. Qed.

(** The last edge of the closed ring has no length: every point is on
    it, and the ring test accepts a point far from the square. *)
Example closed_ring_accepts_far_point :
  _point_on_segment (pt 100 100) (pt 0 0) (pt 0 0) lit_1e_9 = Ok true /\
  point_in_polygon (pt 100 100) [closed_ring] = Ok true /\
  bbox_rejects (polygon_bbox [[closed_ring]]) (pt 100 100) = true.
Proof. evaluate. Qed.

(** The crossing rule alone can accept a point right of the box: with the
    1e-12 of the denominator, the thin edge is met at twice its length. *)
Example crossing_rule_accepts_point_right_of_box :
  Forall (fun i => _point_on_segment (of_Z 15, thin_y)
                     (fst (ring_edge thin_triangle i))
                     (snd (ring_edge thin_triangle i)) lit_1e_9 = Ok false)
         [0%nat; 1%nat; 2%nat] /\
  point_in_polygon (of_Z 15, thin_y) [thin_triangle] = Ok true /\
  max_x (polygon_bbox [[thin_triangle]]) = of_Z 10 /\
  gtb (of_Z 15) (max_x (polygon_bbox [[thin_triangle]])) = true.
Proof.
  split; [|evaluate].
  repeat (apply Forall_cons; [vm_compute; reflexivity|]). apply Forall_nil.
Qed.

(** * Further properties of the code *)

(** ** Edges without length and vertices *)

Lemma sub_self_zero_or_nan (a : float) : zero_or_nan (sub a a) = true.
Proof.
  destruct a as [[|]|[|]| |s m e]; try reflexivity.
  unfold sub, SFsub. rewrite Z.sub_diag. reflexivity.
Qed.

Lemma mul_zero_or_nan_r (a d : float) :
  zero_or_nan d = true -> zero_or_nan (mul a d) = true.
Proof. destruct d, a; try discriminate; reflexivity. Qed.

Lemma mul_zero_or_nan_l (a d : float) :
  zero_or_nan d = true -> zero_or_nan (mul d a) = true.
Proof. destruct d, a; try discriminate; reflexivity. Qed.

Lemma sub_zero_or_nan (a b : float) :
  zero_or_nan a = true -> zero_or_nan b = true -> zero_or_nan (sub a b) = true.
Proof. destruct a as [[|]| | |], b as [[|]| | |]; try discriminate; reflexivity. Qed.

Lemma add_zero_or_nan (a b : float) :
  zero_or_nan a = true -> zero_or_nan b = true -> zero_or_nan (add a b) = true.
Proof. destruct a as [[|]| | |], b as [[|]| | |]; try discriminate; reflexivity. Qed.

Lemma abs_zero_or_nan (a : float) : zero_or_nan a = true -> zero_or_nan (abs a) = true.
Proof. destruct a; try discriminate; reflexivity. Qed.

Lemma zero_or_nan_not_gt_eps (a : float) :
  zero_or_nan a = true -> gtb a lit_1e_9 = false.
Proof. destruct a; try discriminate; reflexivity. Qed.

Lemma zero_or_nan_not_lt_zero (a : float) : zero_or_nan a = true -> ltb a zero = false.
Proof. destruct a; try discriminate; reflexivity. Qed.

Lemma zero_or_nan_not_negative (a : float) : zero_or_nan a = true -> not_negative a = true.
Proof. destruct a; try discriminate; reflexivity. Qed.

(** Nothing that is not negative lies below a zero or a NaN. *)
Lemma not_negative_not_lt (a d : float) :
  not_negative a = true -> zero_or_nan d = true -> gtb d a = false.
Proof.
  unfold gtb, ltb, SFltb.
  destruct d as [ | | |]; try discriminate; destruct a as [|[|]| |[|] ? ?];
    try discriminate; reflexivity.
Qed.

Lemma pow2_zero_or_nan (d : float) :
  zero_or_nan d = true -> exists r, pow2 d = Ok r /\ zero_or_nan r = true.
Proof.
  destruct d as [[|]| | |]; try discriminate; intros _; eexists; split; reflexivity.
Qed.

(** An edge from a point to itself takes every point for one of its own. *)
Lemma on_segment_zero_length (point a : Point) :
  _point_on_segment point a a lit_1e_9 = Ok true.
Proof.
  destruct point as [x y], a as [x1 y1]. unfold _point_on_segment.
  pose proof (sub_self_zero_or_nan x1) as Hx.
  pose proof (sub_self_zero_or_nan y1) as Hy.
  rewrite zero_or_nan_not_gt_eps
    by auto using abs_zero_or_nan, sub_zero_or_nan, mul_zero_or_nan_r.
  rewrite zero_or_nan_not_lt_zero
    by auto using add_zero_or_nan, mul_zero_or_nan_r.
  destruct (pow2_zero_or_nan _ Hx) as (sx & -> & Hsx).
  destruct (pow2_zero_or_nan _ Hy) as (sy & -> & Hsy).
  cbn [bind].
  rewrite not_negative_not_lt;
    auto using zero_or_nan_not_negative, add_zero_or_nan, mul_zero_or_nan_r.
Qed.

(** Rounding keeps the sign it is given. *)
Lemma binary_round_aux_not_negative (m e : Z) (l : location) :
  not_negative (binary_round_aux prec emax false m e l) = true.
Proof.
  unfold binary_round_aux.
  destruct (shr_fexp prec emax m e l) as [mrs' e'].
  destruct (shr_fexp prec emax _ e' loc_Exact) as [mrs'' e''].
  destruct (shr_m mrs''); try reflexivity.
  destruct (Z.leb e'' (emax - prec)); reflexivity.
Qed.

Lemma square_not_negative (a : float) : not_negative (mul a a) = true.
Proof.
  destruct a as [[|]|[|]| |s m e]; try reflexivity.
  unfold mul, SFmul. rewrite xorb_nilpotent. apply binary_round_aux_not_negative.
Qed.

Lemma pow2_not_negative (a r : float) : pow2 a = Ok r -> not_negative r = true.
Proof.
  unfold pow2. destruct (is_finite a && is_inf (mul a a)); [discriminate|].
  intros [= <-]. apply square_not_negative.
Qed.

Lemma add_not_negative (a b : float) :
  not_negative a = true -> not_negative b = true -> not_negative (add a b) = true.
Proof.
  destruct a as [[|]|[|]| |[|] ma ea], b as [[|]|[|]| |[|] mb eb];
    try discriminate; try reflexivity.
  intros _ _. unfold add, SFadd. cbn [cond_Zopp].
  unfold binary_normalize, binary_round. cbn [Z.add].
  destruct (shl_align _ _ _) as [mz ez].
  apply binary_round_aux_not_negative.
Qed.

(** The start of an edge is on it, unless the squared length overflows. *)
Lemma on_segment_start (a b : Point) :
  _point_on_segment a a b lit_1e_9 <> Ok false.
Proof.
  destruct a as [x1 y1], b as [x2 y2]. unfold _point_on_segment.
  pose proof (sub_self_zero_or_nan x1) as Hx.
  pose proof (sub_self_zero_or_nan y1) as Hy.
  rewrite zero_or_nan_not_gt_eps
    by auto using abs_zero_or_nan, sub_zero_or_nan, mul_zero_or_nan_l.
  rewrite zero_or_nan_not_lt_zero
    by auto using add_zero_or_nan, mul_zero_or_nan_l.
  destruct (pow2 (sub x2 x1)) as [sx|e] eqn:Ex; cbn [bind]; [|discriminate].
  destruct (pow2 (sub y2 y1)) as [sy|e] eqn:Ey; cbn [bind]; [|discriminate].
  rewrite not_negative_not_lt; [discriminate| |].
  - apply add_not_negative; eauto using pow2_not_negative.
  - auto using add_zero_or_nan, mul_zero_or_nan_l.
Qed.

(** An edge that does not answer false ends the loop with true or with
    an exception, whatever the parity so far. *)
Lemma ring_loop_not_false (point : Point) (ring : Ring) (idxs : list nat)
      (inside : bool) (i : nat) :
  In i idxs ->
  _point_on_segment point (fst (ring_edge ring i)) (snd (ring_edge ring i)) lit_1e_9
    <> Ok false ->
  ring_loop point ring idxs inside <> Ok false.
Proof.
  intros Hin Hon. revert inside.
  induction idxs as [|j rest IH]; [destruct Hin|].
  intros inside. cbn [ring_loop].
  destruct (ring_edge ring j) as [a b] eqn:Ej.
  destruct (_point_on_segment point a b lit_1e_9) as [[|]|e] eqn:Eon; cbn [bind];
    try discriminate.
  destruct Hin as [->|Hin].
  - rewrite Ej in Hon. cbn [fst snd] in Hon. congruence.
  - destruct point as [x y], a as [x1 y1], b as [x2 y2].
    destruct (intersects y y1 y2); [|now apply IH].
    destruct (x_at_y y x1 y1 x2 y2) as [xa|e]; cbn [bind]; [|discriminate].
    destruct (ltb x xa); now apply IH.
Qed.

Lemma point_in_ring_not_false (point : Point) (ring : Ring) (i : nat) :
  (3 <= List.length ring)%nat -> (i < List.length ring)%nat ->
  _point_on_segment point (fst (ring_edge ring i)) (snd (ring_edge ring i)) lit_1e_9
    <> Ok false ->
  _point_in_ring point ring <> Ok false.
Proof.
  intros Hlen Hi Hon. unfold _point_in_ring.
  destruct (Nat.ltb_spec (List.length ring) 3); [lia|].
  apply ring_loop_not_false with (i := i); [|exact Hon].
  apply in_seq. lia.
Qed.

Lemma point_in_ring_vertex (ring : Ring) (p : Point) :
  (3 <= List.length ring)%nat -> In p ring ->
  _point_in_ring p ring <> Ok false.
Proof.
  intros Hlen Hin.
  destruct (In_nth ring p no_point Hin) as (k & Hk & Hp).
  apply point_in_ring_not_false with (i := k); [exact Hlen|exact Hk|].
  unfold ring_edge. cbn [fst snd]. rewrite Hp. apply on_segment_start.
Qed.

(** X1: every vertex of a ring of at least three points is inside the
    ring: the ring test on it answers true, or raises, and never answers
    false.  So a vertex of a hole is never inside the polygon. *)
Theorem vertices_inside_ring_outside_holed_polygon (ring : Ring) (p : Point) :
  (3 <= List.length ring)%nat -> In p ring ->
  _point_in_ring p ring <> Ok false /\
  forall (outer : Ring) (holes : list Ring),
    In ring holes -> point_in_polygon p (outer :: holes) <> Ok true.
Proof.
  intros Hlen Hin.
  pose proof (point_in_ring_vertex ring p Hlen Hin) as H.
  split; [exact H|]. intros outer holes Hhole Hpoly.
  cbn [point_in_polygon] in Hpoly.
  apply bind_Ok_inv in Hpoly as (in_outer & _ & Hpoly).
  destruct in_outer; [|discriminate]. cbn [negb] in Hpoly.
  apply holes_loop_true in Hpoly.
  rewrite Forall_forall in Hpoly. now apply H, Hpoly.
Qed.

Lemma vertices_inside_ring_outside_holed_polygon_witness :
  _point_in_ring (pt 6 6) [pt 4 4; pt 6 4; pt 6 6; pt 4 6] <> Ok false /\
  forall (outer : Ring) (holes : list Ring),
    In [pt 4 4; pt 6 4; pt 6 6; pt 4 6] holes ->
    point_in_polygon (pt 6 6) (outer :: holes) <> Ok true.
Proof.
  apply (vertices_inside_ring_outside_holed_polygon
           [pt 4 4; pt 6 4; pt 6 6; pt 4 6] (pt 6 6)).
  - cbn. lia.
  - right; right; left; reflexivity.
Defined.

Lemma closed_ring_last_edge (first : Point) (middle : list Point) :
  ring_edge (first :: middle ++ [first]) (S (List.length middle)) = (first, first).
Proof.
  unfold ring_edge. f_equal.
  - cbn [nth]. rewrite app_nth2 by lia. now rewrite Nat.sub_diag.
  - replace (List.length (first :: middle ++ [first])) with (S (List.length middle) + 1)%nat
      by (cbn [List.length]; rewrite length_app; cbn; lia).
    now rewrite Nat.Div0.mod_same.
Qed.

(** X2: a ring written the GeoJSON way, its first point repeated at the
    end, takes every point for an inside point: its closing edge has no
    length and [_point_on_segment] accepts every point on it, so the ring
    test never answers false, and neither does [point_in_polygon] on a
    polygon made of that ring alone. *)
Theorem closed_ring_contains_every_point
        (point first : Point) (middle : list Point) :
  (1 <= List.length middle)%nat ->
  _point_in_ring point (first :: middle ++ [first]) <> Ok false /\
  point_in_polygon point [first :: middle ++ [first]] <> Ok false.
Proof.
  intros Hlen.
  assert (H : _point_in_ring point (first :: middle ++ [first]) <> Ok false).
  { apply point_in_ring_not_false with (i := S (List.length middle)).
    - cbn [List.length]. rewrite length_app. cbn. lia.
    - cbn [List.length]. rewrite length_app. cbn. lia.
    - rewrite closed_ring_last_edge. cbn [fst snd].
      rewrite on_segment_zero_length. discriminate. }
  split; [exact H|]. cbn [point_in_polygon].
  destruct (_point_in_ring point (first :: middle ++ [first])) as [[|]|e];
    cbn [bind negb holes_loop]; congruence.
Qed.

Lemma closed_ring_contains_every_point_witness :
  _point_in_ring (pt 100 100) (pt 0 0 :: [pt 4 0; pt 4 4; pt 0 4] ++ [pt 0 0])
    <> Ok false /\
  point_in_polygon (pt 100 100) [pt 0 0 :: [pt 4 0; pt 4 4; pt 0 4] ++ [pt 0 0]]
    <> Ok false.
Proof.
  apply (closed_ring_contains_every_point (pt 100 100) (pt 0 0)
           [pt 4 0; pt 4 4; pt 0 4]).
  cbn. lia.
Defined.

(** ** What [lookup] returns *)

(** X3: [lookup] returns the properties of the first feature of the index
    whose test answers true, every feature before it having answered
    false, or [None] when every feature answers false; it returns nothing
    else. *)
Theorem lookup_result_characterised (idx : list GeoFeature) (point : Point) (v : value) :
  lookup idx point = Ok v <->
  (Forall (fun f => feature_matches f point = Ok false) idx /\ v = VNone) \/
  (exists pre f post,
      idx = pre ++ f :: post /\
      Forall (fun f' => feature_matches f' point = Ok false) pre /\
      feature_matches f point = Ok true /\
      v = properties f).
Proof.
  split.
  - revert v. induction idx as [|g rest IH]; intros v H.
    + left. cbn in H. split; [constructor|congruence].
    + rewrite lookup_cons in H.
      destruct (feature_matches g point) as [[|]|e] eqn:Eg; cbn [bind] in H;
        [|apply IH in H|discriminate].
      * right. exists [], g, rest. repeat split; auto. congruence.
      * destruct H as [[Hall ->]|(pre & f & post & -> & Hpre & Hf & ->)].
        -- left. split; [now constructor|reflexivity].
        -- right. exists (g :: pre), f, post. repeat split; auto.
  - intros [[Hall ->]|(pre & f & post & -> & Hpre & Hf & ->)].
    + rewrite <- (app_nil_r idx). now rewrite lookup_passes.
    + rewrite lookup_passes by exact Hpre. now rewrite lookup_cons, Hf.
Qed.

(** ** The exceptions of the containment test *)

Lemma pow2_error (a : float) (e : exn) : pow2 a = Raise e -> e = OverflowError.
Proof. unfold pow2. destruct (_ && _); congruence. Qed.

Lemma on_segment_error (point a b : Point) (epsilon : float) (e : exn) :
  _point_on_segment point a b epsilon = Raise e -> e = OverflowError.
Proof.
  destruct point as [x y], a as [x1 y1], b as [x2 y2]. unfold _point_on_segment.
  destruct (gtb _ epsilon); [discriminate|].
  destruct (ltb _ zero); [discriminate|].
  destruct (pow2 (sub x2 x1)) as [sx|e1] eqn:E1; cbn [bind].
  - destruct (pow2 (sub y2 y1)) as [sy|e2] eqn:E2; cbn [bind].
    + destruct (gtb _ _); discriminate.
    + intros [= <-]. now apply pow2_error in E2.
  - intros [= <-]. now apply pow2_error in E1.
Qed.

Lemma x_at_y_error (y x1 y1 x2 y2 : float) (e : exn) :
  x_at_y y x1 y1 x2 y2 = Raise e -> e = ZeroDivisionError.
Proof.
  unfold x_at_y, div. destruct (is_zero _); cbn [bind]; congruence.
Qed.

Lemma ring_loop_error (point : Point) (ring : Ring) (idxs : list nat)
      (inside : bool) (e : exn) :
  ring_loop point ring idxs inside = Raise e -> arithmetic_error e.
Proof.
  revert inside. induction idxs as [|j rest IH]; intros inside; [discriminate|].
  cbn [ring_loop]. destruct (ring_edge ring j) as [a b].
  destruct (_point_on_segment point a b lit_1e_9) as [[|]|e'] eqn:Eon; cbn [bind].
  - discriminate.
  - destruct point as [x y], a as [x1 y1], b as [x2 y2].
    destruct (intersects y y1 y2); [|apply IH].
    destruct (x_at_y y x1 y1 x2 y2) as [xa|e'] eqn:Ex; cbn [bind].
    + destruct (ltb x xa); apply IH.
    + intros [= <-]. left. now apply x_at_y_error in Ex.
  - intros [= <-]. right. now apply on_segment_error in Eon.
Qed.

Lemma point_in_ring_error (point : Point) (ring : Ring) (e : exn) :
  _point_in_ring point ring = Raise e -> arithmetic_error e.
Proof.
  unfold _point_in_ring. destruct (Nat.ltb _ _); [discriminate|].
  apply ring_loop_error.
Qed.

Lemma holes_loop_error (point : Point) (holes : list Ring) (e : exn) :
  holes_loop point holes = Raise e -> arithmetic_error e.
Proof.
  induction holes as [|hole rest IH]; [discriminate|]. cbn [holes_loop].
  destruct (_point_in_ring point hole) as [[|]|e'] eqn:E; cbn [bind];
    [discriminate|exact IH|].
  intros [= <-]. now apply point_in_ring_error in E.
Qed.

Lemma point_in_polygon_error (point : Point) (polygon : Polygon) (e : exn) :
  point_in_polygon point polygon = Raise e -> arithmetic_error e.
Proof.
  destruct polygon as [|outer holes]; [discriminate|]. cbn [point_in_polygon].
  destruct (_point_in_ring point outer) as [[|]|e'] eqn:E; cbn [bind negb];
    [apply holes_loop_error|discriminate|].
  intros [= <-]. now apply point_in_ring_error in E.
Qed.

Lemma any_polygon_error (point : Point) (polys : list Polygon) (e : exn) :
  any_polygon point polys = Raise e -> arithmetic_error e.
Proof.
  induction polys as [|polygon rest IH]; [discriminate|]. cbn [any_polygon].
  destruct (point_in_polygon point polygon) as [[|]|e'] eqn:E; cbn [bind];
    [discriminate|exact IH|].
  intros [= <-]. now apply point_in_polygon_error in E.
Qed.

(** X4: when [lookup] raises, the exception is a [ZeroDivisionError] (the
    denominator [y2 - y1 + 1e-12] of a crossing edge is zero) or an
    [OverflowError] (the squared length of an edge overflows), and it comes
    from the first feature whose test does not answer false. *)
Theorem lookup_raises_only_arithmetic_errors
        (idx : list GeoFeature) (point : Point) (e : exn) :
  lookup idx point = Raise e ->
  arithmetic_error e /\
  exists pre f post,
    idx = pre ++ f :: post /\
    Forall (fun f' => feature_matches f' point = Ok false) pre /\
    bbox_rejects (bbox f) point = false /\
    any_polygon point (polygons f) = Raise e.
Proof.
  induction idx as [|g rest IH]; [discriminate|].
  rewrite lookup_cons. unfold feature_matches at 1.
  destruct (bbox_rejects (bbox g) point) eqn:Eb; cbn [bind].
  - intros H. destruct (IH H) as (He & pre & f & post & -> & Hpre & Hf).
    split; [exact He|]. exists (g :: pre), f, post. repeat split; try tauto.
    constructor; [|exact Hpre]. unfold feature_matches. now rewrite Eb.
  - destruct (any_polygon point (polygons g)) as [[|]|e'] eqn:Ea; cbn [bind].
    + discriminate.
    + intros H. destruct (IH H) as (He & pre & f & post & -> & Hpre & Hf).
      split; [exact He|]. exists (g :: pre), f, post. repeat split; try tauto.
      constructor; [|exact Hpre]. unfold feature_matches. now rewrite Eb.
    + intros [= <-]. split; [now apply any_polygon_error in Ea|].
      exists [], g, rest. repeat split; auto.
Qed.

Lemma lookup_raises_only_arithmetic_errors_witness :
  arithmetic_error ZeroDivisionError /\
  exists pre f post,
    [zero_denominator_feature] = pre ++ f :: post /\
    Forall (fun f' => feature_matches f' (pt 300000 0) = Ok false) pre /\
    bbox_rejects (bbox f) (pt 300000 0) = false /\
    any_polygon (pt 300000 0) (polygons f) = Raise ZeroDivisionError.
Proof.
  apply (lookup_raises_only_arithmetic_errors [zero_denominator_feature]
           (pt 300000 0) ZeroDivisionError).
  vm_compute. reflexivity.
Defined.

(** ** The index, record by record *)

Section IndexInvariants.

Variable float_of_str : string -> option float.

Lemma index_entry_Some (r : value) (f : GeoFeature) :
  index_entry float_of_str r = Ok (Some f) ->
  exists fd,
    r = VDict fd /\
    extract_polygons float_of_str (feature_geometry fd) = Ok (polygons f) /\
    polygons f <> [] /\
    bbox f = polygon_bbox (polygons f) /\
    properties f = match dict_get fd "properties" with
                   | Some v => v
                   | None => VDict []
                   end.
Proof.
  destruct r as [| | | | | |fd]; try discriminate.
  rewrite index_entry_dict. intros H. exists fd. split; [reflexivity|].
  destruct (extract_polygons float_of_str (feature_geometry fd)) as [polys|e];
    cbn [bind] in H; [|discriminate].
  destruct polys as [|polygon rest]; [discriminate|].
  injection H as <-. cbn [polygons bbox properties]. repeat split. discriminate.
Qed.

(** X5: every entry of a built index comes from a feature record of the
    input: its polygons are what [extract_polygons] gives for the
    geometry of the record, they are not empty, its box is
    [polygon_bbox] of them, and its properties are the "properties" of the
    record, or an empty dict when the record has none. *)
Theorem built_index_entries (fs : list value) (idx : list GeoFeature) (f : GeoFeature) :
  GeoFeatureIndex_init float_of_str fs = Ok idx -> In f idx ->
  exists fd,
    In (VDict fd) fs /\
    extract_polygons float_of_str (feature_geometry fd) = Ok (polygons f) /\
    polygons f <> [] /\
    bbox f = polygon_bbox (polygons f) /\
    properties f = match dict_get fd "properties" with
                   | Some v => v
                   | None => VDict []
                   end.
Proof.
  intros Hidx Hin.
  destruct (init_In float_of_str fs idx f Hidx Hin) as (r & Hr & He).
  destruct (index_entry_Some r f He) as (fd & -> & H).
  exists fd. split; [exact Hr|exact H].
Qed.

(** X6: the index of two sequences of records, one after the other, is
    the index of the first followed by the index of the second; it is
    built when both are, the first exception ending the construction; and
    an index has no more entries than the input has records. *)
Theorem index_of_concatenation (fs1 fs2 : list value) :
  GeoFeatureIndex_init float_of_str (fs1 ++ fs2) =
    (idx1 <- GeoFeatureIndex_init float_of_str fs1 ;;
     idx2 <- GeoFeatureIndex_init float_of_str fs2 ;;
     Ok (idx1 ++ idx2)) /\
  forall idx, GeoFeatureIndex_init float_of_str fs1 = Ok idx ->
              (List.length idx <= List.length fs1)%nat.
Proof.
  split.
  - unfold GeoFeatureIndex_init. rewrite init_loop_app.
    destruct (init_loop float_of_str fs1 []) as [idx1|e]; cbn [bind]; [|reflexivity].
    apply init_loop_acc.
  - induction fs1 as [|r rest IH]; intros idx.
    + intros [= <-]. cbn. lia.
    + destruct (index_entry float_of_str r) as [[g|]|e] eqn:Er.
      * rewrite (init_cons_kept float_of_str r rest g Er).
        destruct (GeoFeatureIndex_init float_of_str rest) as [entries|e];
          cbn [bind]; [|discriminate].
        intros [= <-]. specialize (IH entries eq_refl). cbn. lia.
      * unfold GeoFeatureIndex_init in *. cbn [init_loop]. rewrite Er. cbn [bind].
        intros H. specialize (IH idx H). cbn. lia.
      * unfold GeoFeatureIndex_init. cbn [init_loop]. rewrite Er. discriminate.
Qed.

End IndexInvariants.

Lemma built_index_entries_witness :
  exists fd,
    In (VDict fd) [north; VDict point_feature] /\
    extract_polygons no_str_float (feature_geometry fd) = Ok (polygons north_entry) /\
    polygons north_entry <> [] /\
    bbox north_entry = polygon_bbox (polygons north_entry) /\
    properties north_entry = match dict_get fd "properties" with
                             | Some v => v
                             | None => VDict []
                             end.
Proof.
  apply (built_index_entries no_str_float [north; VDict point_feature]
           [north_entry] north_entry).
  - vm_compute. reflexivity.
  - left; reflexivity.
Defined.

Lemma index_of_concatenation_witness :
  GeoFeatureIndex_init no_str_float ([north; VDict point_feature] ++ [north]) =
    (idx1 <- GeoFeatureIndex_init no_str_float [north; VDict point_feature] ;;
     idx2 <- GeoFeatureIndex_init no_str_float [north] ;;
     Ok (idx1 ++ idx2)) /\
  (List.length [north_entry] <= List.length [north; VDict point_feature])%nat.
Proof.
  destruct (index_of_concatenation no_str_float [north; VDict point_feature] [north])
    as [H1 H2].
  split; [exact H1|]. apply H2. vm_compute. reflexivity.
Defined.

(** ** The box against the vertices *)

(** X7: the box of a list of polygons rejects none of their vertices
    whose coordinates are numbers: the pruning test of [lookup] passes
    every such vertex, of an outer ring or of a hole. *)
Theorem bbox_admits_every_vertex (polys : list Polygon) (p : Point) :
  vertex_of polys p ->
  is_nan (fst p) = false -> is_nan (snd p) = false ->
  bbox_rejects (polygon_bbox polys) p = false.
Proof.
  intros (polygon & ring & Hpoly & Hring & Hp) Hx Hy.
  pose proof (polygon_bbox_covers_x p ring polygon polys Hx Hp Hring Hpoly) as [X1 X2].
  pose proof (polygon_bbox_covers_y p ring polygon polys Hy Hp Hring Hpoly) as [Y1 Y2].
  unfold min_x, min_y, max_x, max_y in *.
  destruct (polygon_bbox polys) as [[[a b] c] d], p as [x y].
  cbn [fst snd] in *. unfold bbox_rejects, gtb.
  now rewrite (leb_not_ltb _ _ X1), (leb_not_ltb _ _ X2),
    (leb_not_ltb _ _ Y1), (leb_not_ltb _ _ Y2).
Qed.

Lemma bbox_admits_every_vertex_witness :
  bbox_rejects (polygon_bbox [holed_square]) (pt 6 4) = false.
Proof.
  apply (bbox_admits_every_vertex [holed_square] (pt 6 4)).
  - exists holed_square, [pt 4 4; pt 6 4; pt 6 6; pt 4 6].
    split; [left; reflexivity|]. split; [right; left; reflexivity|].
    right; left; reflexivity.
  - reflexivity.
  - reflexivity.
Defined.

Section Attained.

Variable V : Point -> Prop.

Lemma attained_add (box : BBox) (p : Point) :
  V p -> attained V box -> attained V (bbox_add box p).
Proof.
  destruct box as [[[a b] c] d], p as [x y].
  unfold attained, min_x, min_y, max_x, max_y, bbox_add, py_min, py_max, gtb.
  cbn [fst snd]. intros Hp (Ha & Hb & Hc & Hd). repeat split.
  - destruct (ltb x a); [right; now exists (x, y)|exact Ha].
  - destruct (ltb y b); [right; now exists (x, y)|exact Hb].
  - destruct (ltb c x); [right; now exists (x, y)|exact Hc].
  - destruct (ltb d y); [right; now exists (x, y)|exact Hd].
Qed.

End Attained.

Lemma fold_left_keeps_In {A B : Type} (f : B -> A -> B) (P : B -> Prop) (l : list A) :
  (forall b x, In x l -> P b -> P (f b x)) ->
  forall b, P b -> P (fold_left f l b).
Proof.
  induction l as [|x l IH]; intros Hstep b Hb; [exact Hb|].
  cbn [fold_left]. apply IH.
  - intros b' x' Hx'. apply Hstep. now right.
  - apply Hstep; [now left|exact Hb].
Qed.

(** X8: no bound of the box is a NaN, whatever the coordinates, and each
    bound is the infinity the pass starts from or the coordinate of a
    vertex of the input: with the vertices admitted, the box is the
    smallest that holds them. *)
Theorem bbox_bounds_are_vertex_coordinates (polys : list Polygon) :
  box_wf (polygon_bbox polys) /\ attained (vertex_of polys) (polygon_bbox polys).
Proof.
  split; [apply polygon_bbox_wf|].
  unfold polygon_bbox.
  apply fold_left_keeps_In with (P := attained (vertex_of polys)).
  - intros box polygon Hpoly Hbox. unfold bbox_polygon.
    apply fold_left_keeps_In with (P := attained (vertex_of polys)); [|exact Hbox].
    intros box' ring Hring Hbox'. unfold bbox_ring.
    apply fold_left_keeps_In with (P := attained (vertex_of polys)); [|exact Hbox'].
    intros box'' p Hp Hbox''. apply attained_add; [|exact Hbox''].
    now exists polygon, ring.
  - repeat split; now left.
Qed.

(** ** Coordinate arrays of floats are read back as they are *)

Section RoundTrip.

Variable float_of_str : string -> option float.

Lemma convert_encoded_ring (ring : Ring) :
  convert_ring float_of_str (encode_ring ring) = Ok ring.
Proof.
  unfold convert_ring, encode_ring. cbn [iterate bind].
  induction ring as [|[x y] rest IH]; [reflexivity|].
  cbn [map mapM]. unfold convert_entry at 1. cbn. now rewrite IH.
Qed.

Lemma convert_encoded_polygon (polygon : Polygon) :
  convert_polygon float_of_str (encode_polygon polygon) = Ok polygon.
Proof.
  unfold convert_polygon, encode_polygon. cbn [iterate bind].
  induction polygon as [|ring rest IH]; [reflexivity|].
  cbn [map mapM]. rewrite convert_encoded_ring. cbn [bind]. now rewrite IH.
Qed.

Lemma convert_encoded_polygons (polys : list Polygon) :
  mapM (convert_polygon float_of_str) (map encode_polygon polys) = Ok polys.
Proof.
  induction polys as [|polygon rest IH]; [reflexivity|].
  cbn [map mapM]. rewrite convert_encoded_polygon. cbn [bind]. now rewrite IH.
Qed.

(** X9: a "Polygon" record whose coordinates are the nested arrays of a
    polygon of floats extracts to that polygon alone, and a
    "MultiPolygon" record to the polygons it lists, in their order: points,
    rings and polygons are neither dropped nor reordered, and floats are
    not changed. *)
Theorem extract_reads_back_float_arrays (gd : list (string * value)) :
  (forall polygon : Polygon,
      dict_get gd "type" = Some (VStr "Polygon") ->
      dict_get gd "coordinates" = Some (encode_polygon polygon) ->
      extract_polygons float_of_str (VDict gd) = Ok [polygon]) /\
  (forall polys : list Polygon,
      dict_get gd "type" = Some (VStr "MultiPolygon") ->
      dict_get gd "coordinates" = Some (encode_polygons polys) ->
      extract_polygons float_of_str (VDict gd) = Ok polys).
Proof.
  split.
  - intros polygon Ht Hc. unfold extract_polygons. cbn [py_get bind].
    rewrite Ht, Hc. cbn -[convert_polygon]. now rewrite convert_encoded_polygon.
  - intros polys Ht Hc. unfold extract_polygons. cbn [py_get bind].
    rewrite Ht, Hc. unfold encode_polygons. cbn -[convert_polygon mapM].
    apply convert_encoded_polygons.
Qed.

End RoundTrip.

Lemma extract_reads_back_float_arrays_witness :
  extract_polygons no_str_float
    (VDict [("type", VStr "Polygon");
            ("bbox", VList []);
            ("coordinates", encode_polygon holed_square)]) = Ok [holed_square] /\
  extract_polygons no_str_float
    (VDict [("type", VStr "MultiPolygon");
            ("coordinates", encode_polygons [[unit_square]; holed_square])])
  = Ok [[unit_square]; holed_square].
Proof.
  split.
  - apply (proj1 (extract_reads_back_float_arrays no_str_float _)); reflexivity.
  - apply (proj2 (extract_reads_back_float_arrays no_str_float _)); reflexivity.
Defined.

(** ** Records and rings that cannot match *)

Section RecordEdges.

Variable float_of_str : string -> option float.

Lemma extract_not_dict (g : value) :
  (forall d, g <> VDict d) ->
  extract_polygons float_of_str g = Raise AttributeError.
Proof. destruct g; try reflexivity. intros H. now contradiction (H d). Qed.

(** X10: in the construction of an index, a feature record whose
    "geometry" is missing or is falsy (null, an empty dict) is passed
    over; a record that is not a dict, or whose geometry is a non-empty
    value other than a dict, ends the construction with [AttributeError],
    once the records before it have been read. *)
Theorem records_without_geometry (pre post : list value) :
  (forall fd : list (string * value),
      (dict_get fd "geometry" = None \/
       exists g, dict_get fd "geometry" = Some g /\ truthy g = false) ->
      GeoFeatureIndex_init float_of_str (pre ++ VDict fd :: post) =
      GeoFeatureIndex_init float_of_str (pre ++ post)) /\
  (forall (r : value) (acc : list GeoFeature),
      (forall d, r <> VDict d) ->
      GeoFeatureIndex_init float_of_str pre = Ok acc ->
      GeoFeatureIndex_init float_of_str (pre ++ r :: post) = Raise AttributeError) /\
  (forall (fd : list (string * value)) (g : value) (acc : list GeoFeature),
      dict_get fd "geometry" = Some g -> truthy g = true ->
      (forall d, g <> VDict d) ->
      GeoFeatureIndex_init float_of_str pre = Ok acc ->
      GeoFeatureIndex_init float_of_str (pre ++ VDict fd :: post)
      = Raise AttributeError).
Proof.
  split; [|split].
  - intros fd H. apply init_skips. rewrite index_entry_dict.
    unfold feature_geometry.
    destruct H as [->|(g & -> & ->)]; reflexivity.
  - intros r acc Hr Hpre. apply init_raises with (acc := acc); [|exact Hpre].
    destruct r; try reflexivity. now contradiction (Hr d).
  - intros fd g acc Hg Ht Hnd Hpre.
    apply init_raises with (acc := acc); [|exact Hpre].
    rewrite index_entry_dict. unfold feature_geometry. rewrite Hg, Ht.
    now rewrite extract_not_dict.
Qed.

End RecordEdges.

Lemma records_without_geometry_witness :
  GeoFeatureIndex_init no_str_float
    ([north] ++ VDict [("geometry", VNone); ("properties", VDict [])] :: [north]) =
  GeoFeatureIndex_init no_str_float ([north] ++ [north]) /\
  GeoFeatureIndex_init no_str_float ([north] ++ VNone :: [north])
  = Raise AttributeError /\
  GeoFeatureIndex_init no_str_float
    ([north] ++ VDict [("geometry", VStr "POINT (1 2)")] :: [north])
  = Raise AttributeError.
Proof.
  destruct (records_without_geometry no_str_float [north] [north]) as (H1 & H2 & H3).
  split; [|split].
  - apply H1. right. exists VNone. split; reflexivity.
  - apply (H2 VNone [north_entry]); [discriminate|vm_compute; reflexivity].
  - apply (H3 _ (VStr "POINT (1 2)") [north_entry]);
      [reflexivity|reflexivity|discriminate|vm_compute; reflexivity].
Defined.

Lemma any_polygon_short_rings (point : Point) (polys : list Polygon) :
  (forall polygon, In polygon polys -> (List.length (hd [] polygon) < 3)%nat) ->
  any_polygon point polys = Ok false.
Proof.
  induction polys as [|polygon rest IH]; intros H; [reflexivity|].
  cbn [any_polygon].
  assert (Hp : point_in_polygon point polygon = Ok false).
  { pose proof (H polygon (or_introl eq_refl)) as Hlen.
    destruct polygon as [|outer holes]; [reflexivity|].
    cbn [hd] in Hlen. cbn [point_in_polygon]. unfold _point_in_ring.
    destruct (Nat.ltb_spec (List.length outer) 3); [reflexivity|lia]. }
  rewrite Hp. cbn [bind]. apply IH. intros p Hin. apply H. now right.
Qed.

(** X11: a feature each of whose polygons has no ring, or an outer ring of
    fewer than three points, matches no point and raises nothing, whatever
    its holes and its box: [lookup] answers as it would without it. *)
Theorem short_outer_rings_never_match
        (f : GeoFeature) (pre post : list GeoFeature) (point : Point) :
  (forall polygon, In polygon (polygons f) ->
                   (List.length (hd [] polygon) < 3)%nat) ->
  feature_matches f point = Ok false /\
  lookup (pre ++ f :: post) point = lookup (pre ++ post) point.
Proof.
  intros H.
  assert (Hf : feature_matches f point = Ok false).
  { unfold feature_matches. destruct (bbox_rejects (bbox f) point); [reflexivity|].
    now apply any_polygon_short_rings. }
  split; [exact Hf|]. now apply lookup_without.
Qed.

Lemma short_outer_rings_never_match_witness :
  feature_matches
    (mkGeoFeature (polygon_bbox [[[pt 0 0; pt 4 0]; square_ring]])
                  [[[pt 0 0; pt 4 0]; square_ring]] VNone) (pt 2 0) = Ok false /\
  lookup ([upper] ++
          mkGeoFeature (polygon_bbox [[[pt 0 0; pt 4 0]; square_ring]])
                       [[[pt 0 0; pt 4 0]; square_ring]] VNone :: [lower]) (pt 2 0)
  = lookup ([upper] ++ [lower]) (pt 2 0).
Proof.
  apply (short_outer_rings_never_match
           (mkGeoFeature (polygon_bbox [[[pt 0 0; pt 4 0]; square_ring]])
                         [[[pt 0 0; pt 4 0]; square_ring]] VNone)
           [upper] [lower] (pt 2 0)).
  intros polygon [<-|[]]. cbn. lia.
Defined.

(** ** Enriching rows *)

Lemma dict_get_set (d : list (string * value)) (k k' : string) (v : value) :
  dict_get (dict_set d k v) k' = if String.eqb k k' then Some v else dict_get d k'.
Proof.
  induction d as [|[k0 v0] rest IH]; cbn [dict_set dict_get].
  - destruct (String.eqb k k'); reflexivity.
  - destruct (String.eqb_spec k0 k) as [->|Hne]; cbn [dict_get].
    + destruct (String.eqb k k'); reflexivity.
    + rewrite IH. destruct (String.eqb_spec k0 k') as [->|Hne'].
      * apply String.eqb_neq in Hne. rewrite String.eqb_sym in Hne. now rewrite Hne.
      * reflexivity.
Qed.

Lemma dict_get_fold_other (kvs : list (string * value)) (d : list (string * value))
      (k : string) :
  ~ In k (map fst kvs) ->
  dict_get (fold_left (fun d kv => dict_set d (fst kv) (snd kv)) kvs d) k = dict_get d k.
Proof.
  revert d. induction kvs as [|[k0 v0] rest IH]; intros d Hk; [reflexivity|].
  cbn [fold_left fst snd]. rewrite IH by (intros H; apply Hk; now right).
  rewrite dict_get_set. destruct (String.eqb_spec k0 k) as [->|]; [|reflexivity].
  exfalso. apply Hk. now left.
Qed.

Lemma dict_get_fold_same (kvs : list (string * value)) (d : list (string * value))
      (k : string) (v : value) :
  NoDup (map fst kvs) -> In (k, v) kvs ->
  dict_get (fold_left (fun d kv => dict_set d (fst kv) (snd kv)) kvs d) k = Some v.
Proof.
  revert d. induction kvs as [|[k0 v0] rest IH]; intros d Hnd Hin; [destruct Hin|].
  cbn [map fst] in Hnd. inversion Hnd as [|? ? Hk0 Hrest]; subst.
  cbn [fold_left fst snd]. destruct Hin as [[= -> ->]|Hin].
  - rewrite dict_get_fold_other by exact Hk0.
    now rewrite dict_get_set, String.eqb_refl.
  - now apply IH.
Qed.

Lemma tea_fields_NoDup : NoDup tea_fields.
Proof.
  unfold tea_fields.
  repeat (constructor; [cbn; intuition discriminate|]). constructor.
Qed.

Section EnrichFacts.

Variable float_of_str : string -> option float.
Variable str_title : string -> string.
Variables esc_index county_index district_index : list GeoFeature.

Local Abbreviation locate' :=
  (locate float_of_str esc_index county_index district_index).
Local Abbreviation enrich_row' :=
  (enrich_row float_of_str str_title esc_index county_index district_index).
Local Abbreviation enrich_loop' :=
  (enrich_loop float_of_str str_title esc_index county_index district_index).
Local Abbreviation enrich_vendors' :=
  (enrich_vendors float_of_str str_title esc_index county_index district_index).

Lemma set_from_Ok (d d' : list (string * value)) (key field : string) (props : value) :
  set_from d key props field = Ok d' ->
  exists v, py_get props field (VStr EmptyString) = Ok v /\ d' = dict_set d key v.
Proof.
  unfold set_from. intros H. apply bind_Ok_inv in H as (v & Hv & [= <-]). eauto.
Qed.

(** What a row is enriched with: the eleven values, written in order. *)
Lemma enrich_row_Ok (row enriched : list (string * value)) (flags : bool * bool * bool) :
  enrich_row' row = Ok (enriched, flags) ->
  exists found name vs,
    locate' row = Ok found /\
    flags = (negb (truthy (fst (fst found))), negb (truthy (snd (fst found))),
             negb (truthy (snd found))) /\
    county_title str_title (layer_props found County) = Ok name /\
    Forall2 (fun src v => py_get (layer_props found (snd (fst src))) (snd src)
                                 (VStr EmptyString) = Ok v) tea_sources vs /\
    enriched =
      fold_left (fun d kv => dict_set d (fst kv) (snd kv))
                (combine tea_fields
                   (firstn 3 vs ++ name :: skipn 3 vs)) row.
Proof.
  unfold enrich_row. intros H.
  apply bind_Ok_inv in H as ([[esc county] district] & Hloc & H).
  assert (Ee : (if negb (truthy esc) then VDict [] else esc) = or_empty esc)
    by (unfold or_empty; now destruct (truthy esc)).
  assert (Ec : (if negb (truthy county) then VDict [] else county) = or_empty county)
    by (unfold or_empty; now destruct (truthy county)).
  assert (Ed : (if negb (truthy district) then VDict [] else district) = or_empty district)
    by (unfold or_empty; now destruct (truthy district)).
  rewrite Ee, Ec, Ed in H.
  apply bind_Ok_inv in H as (d1 & H1 & H). apply set_from_Ok in H1 as (v1 & G1 & ->).
  apply bind_Ok_inv in H as (d2 & H2 & H). apply set_from_Ok in H2 as (v2 & G2 & ->).
  apply bind_Ok_inv in H as (d3 & H3 & H). apply set_from_Ok in H3 as (v3 & G3 & ->).
  apply bind_Ok_inv in H as (name & Hname & H).
  apply bind_Ok_inv in H as (d5 & H5 & H). apply set_from_Ok in H5 as (v5 & G5 & ->).
  apply bind_Ok_inv in H as (d6 & H6 & H). apply set_from_Ok in H6 as (v6 & G6 & ->).
  apply bind_Ok_inv in H as (d7 & H7 & H). apply set_from_Ok in H7 as (v7 & G7 & ->).
  apply bind_Ok_inv in H as (d8 & H8 & H). apply set_from_Ok in H8 as (v8 & G8 & ->).
  apply bind_Ok_inv in H as (d9 & H9 & H). apply set_from_Ok in H9 as (v9 & G9 & ->).
  apply bind_Ok_inv in H as (d10 & H10 & H). apply set_from_Ok in H10 as (v10 & G10 & ->).
  apply bind_Ok_inv in H as (d11 & H11 & H). apply set_from_Ok in H11 as (v11 & G11 & ->).
  injection H as <- <-.
  exists (esc, county, district), name, [v1; v2; v3; v5; v6; v7; v8; v9; v10; v11].
  split; [exact Hloc|]. split; [reflexivity|]. split; [exact Hname|].
  split; [|reflexivity].
  unfold tea_sources. repeat (constructor; [assumption|]). constructor.
Qed.

(** X12: a row is enriched by writing the eleven "tea_" columns and
    nothing else: every other column keeps the value it has in the vendor
    row, and each written column of a layer holds the property of that
    name in what [lookup] returned for the layer, or the empty string
    when the property is not there or the layer gave nothing; the county
    name is the title-cased "FENAME", or else "NAME". *)
Theorem enriched_row_columns (row enriched : list (string * value))
        (flags : bool * bool * bool) :
  enrich_row' row = Ok (enriched, flags) ->
  (forall k, ~ In k tea_fields -> dict_get enriched k = dict_get row k) /\
  exists found,
    locate' row = Ok found /\
    flags = (negb (truthy (fst (fst found))), negb (truthy (snd (fst found))),
             negb (truthy (snd found))) /\
    Forall (fun src =>
              exists v, dict_get enriched (fst (fst src)) = Some v /\
                        py_get (layer_props found (snd (fst src))) (snd src)
                               (VStr EmptyString) = Ok v) tea_sources /\
    exists name, dict_get enriched "tea_county_name" = Some name /\
                 county_title str_title (layer_props found County) = Ok name.
Proof.
  intros H.
  destruct (enrich_row_Ok row enriched flags H)
    as (found & name & vs & Hloc & Hflags & Hname & Hvs & ->).
  subst flags. unfold tea_sources in Hvs.
  repeat match goal with
         | H : Forall2 _ (_ :: _) _ |- _ =>
             let v := fresh "v" in
             let G := fresh "G" in
             inversion H as [|? v ? ? G ?]; subst; clear H
         | H : Forall2 _ [] _ |- _ => inversion H; subst; clear H
         end.
  cbn [firstn skipn app combine tea_fields].
  split.
  - intros k Hk. now apply dict_get_fold_other.
  - exists found. split; [exact Hloc|]. split; [reflexivity|]. split.
    + unfold tea_sources.
      repeat (constructor;
              [eexists; split;
               [apply dict_get_fold_same; [exact tea_fields_NoDup|cbn; tauto]|
                assumption]|]).
      constructor.
    + exists name. split; [|exact Hname].
      apply dict_get_fold_same; [exact tea_fields_NoDup|cbn; tauto].
Qed.

(** X13: a vendor row without a latitude or a longitude (missing, null or
    empty), or with one that [float] does not read as a number, is kept:
    no index is consulted, the eleven columns are written as empty
    strings, and the row counts as missing in each of the three layers. *)
Theorem rows_without_point_are_blank (row : list (string * value)) :
  truthy (row_get row "location_lat") && truthy (row_get row "location_lng") = false \/
  parse_point float_of_str (row_get row "location_lng") (row_get row "location_lat")
  = Ok None ->
  enrich_row' row = Ok (blank_row row, (true, true, true)).
Proof.
  intros H.
  assert (Hloc : locate' row = Ok (VNone, VNone, VNone)).
  { unfold locate. destruct H as [->| ->]; [reflexivity|].
    now destruct (truthy _ && truthy _). }
  unfold enrich_row. rewrite Hloc. reflexivity.
Qed.

Lemma enrich_loop_mapM (rows acc : list (list (string * value))) (m0 : Missing) :
  enrich_loop' rows acc m0 =
    (results <- mapM enrich_row' rows ;;
     Ok (acc ++ map fst results,
         mkMissing (missing_esc m0 + missing_esc (tally (map snd results)))
                   (missing_county m0 + missing_county (tally (map snd results)))
                   (missing_district m0 + missing_district (tally (map snd results))))).
Proof.
  revert acc m0. induction rows as [|row rest IH]; intros acc m0.
  - cbn. rewrite app_nil_r, !Nat.add_0_r. now destruct m0.
  - cbn [enrich_loop mapM].
    destruct (enrich_row' row) as [[enriched [[a b] c]]|e]; cbn [bind]; [|reflexivity].
    rewrite IH.
    destruct (mapM enrich_row' rest) as [results|e]; cbn [bind]; [|reflexivity].
    cbn [map fst snd tally filter missing_esc missing_county missing_district].
    rewrite <- app_assoc. cbn [app]. f_equal. f_equal.
    destruct a, b, c; cbn [count filter List.length fst snd]; f_equal; lia.
Qed.

Lemma mapM_length {A B : Type} (f : A -> result B) (l : list A) (r : list B) :
  mapM f l = Ok r -> List.length r = List.length l.
Proof.
  revert r. induction l as [|a l IH]; intros r; cbn [mapM].
  - now intros [= <-].
  - destruct (f a) as [b|e]; cbn [bind]; [|discriminate].
    destruct (mapM f l) as [bs|e]; cbn [bind]; [|discriminate].
    intros [= <-]. cbn. now rewrite (IH bs).
Qed.

(** X14: [enrich_vendors'] enriches the rows one by one, in their order:
    it returns one enriched row for each vendor row, with the number of
    rows that count as missing in each layer, or the first exception a row
    raises; no counter exceeds the number of rows. *)
Theorem enrich_vendors_row_by_row (rows : list (list (string * value))) :
  enrich_vendors' rows =
    (results <- mapM enrich_row' rows ;;
     Ok (map fst results, tally (map snd results))) /\
  forall out m,
    enrich_vendors' rows = Ok (out, m) ->
    List.length out = List.length rows /\
    (missing_esc m <= List.length rows)%nat /\
    (missing_county m <= List.length rows)%nat /\
    (missing_district m <= List.length rows)%nat.
Proof.
  assert (E : enrich_vendors' rows =
    (results <- mapM enrich_row' rows ;;
     Ok (map fst results, tally (map snd results)))).
  { unfold enrich_vendors. rewrite enrich_loop_mapM.
    destruct (mapM enrich_row' rows) as [results|e]; cbn [bind]; [|reflexivity].
    reflexivity. }
  split; [exact E|]. intros out m. rewrite E.
  destruct (mapM enrich_row' rows) as [results|e] eqn:Em; cbn [bind]; [|discriminate].
  intros [= <- <-]. apply mapM_length in Em.
  rewrite length_map. split; [exact Em|].
  cbn [tally missing_esc missing_county missing_district].
  repeat split;
    (eapply Nat.le_trans; [apply filter_length_le|]); rewrite length_map; lia.
Qed.

End EnrichFacts.

Lemma enriched_row_columns_witness :
  (forall k, ~ In k tea_fields ->
             dict_get vendor_inside_enriched k = dict_get vendor_inside k) /\
  exists found,
    locate example_float esc_example county_example [] vendor_inside = Ok found /\
    (false, false, true) =
      (negb (truthy (fst (fst found))), negb (truthy (snd (fst found))),
       negb (truthy (snd found))) /\
    Forall (fun src =>
              exists v, dict_get vendor_inside_enriched (fst (fst src)) = Some v /\
                        py_get (layer_props found (snd (fst src))) (snd src)
                               (VStr EmptyString) = Ok v) tea_sources /\
    exists name, dict_get vendor_inside_enriched "tea_county_name" = Some name /\
                 county_title same_case (layer_props found County) = Ok name.
Proof.
  apply (enriched_row_columns example_float same_case esc_example county_example []
           vendor_inside vendor_inside_enriched (false, false, true)).
  vm_compute. reflexivity.
Defined.

Lemma rows_without_point_are_blank_witness :
  enrich_row example_float same_case esc_example county_example [] vendor_unreadable
  = Ok (blank_row vendor_unreadable, (true, true, true)).
Proof.
  apply (rows_without_point_are_blank example_float same_case
           esc_example county_example [] vendor_unreadable).
  right. reflexivity.
Defined.

Lemma enrich_vendors_row_by_row_witness :
  List.length [vendor_inside_enriched; blank_row vendor_unreadable]
  = List.length [vendor_inside; vendor_unreadable] /\
  (missing_esc (mkMissing 1 1 2) <= List.length [vendor_inside; vendor_unreadable])%nat /\
  (missing_county (mkMissing 1 1 2) <= List.length [vendor_inside; vendor_unreadable])%nat /\
  (missing_district (mkMissing 1 1 2) <= List.length [vendor_inside; vendor_unreadable])%nat.
Proof.
  apply (proj2 (enrich_vendors_row_by_row example_float same_case
                  esc_example county_example [] [vendor_inside; vendor_unreadable])
           [vendor_inside_enriched; blank_row vendor_unreadable] (mkMissing 1 1 2)).
  vm_compute. reflexivity.
Defined.

(** ** Several polygons, and the index as a pass over the records *)

(** X15: a feature of several polygons is their union: the inner loop of
    [lookup] answers true exactly when some polygon contains the point,
    the polygons before it having answered false, and false exactly when
    every polygon answers false. *)
Theorem any_polygon_is_union (point : Point) (polys : list Polygon) :
  (any_polygon point polys = Ok true <->
   exists pre polygon post,
     polys = pre ++ polygon :: post /\
     Forall (fun q => point_in_polygon point q = Ok false) pre /\
     point_in_polygon point polygon = Ok true) /\
  (any_polygon point polys = Ok false <->
   Forall (fun q => point_in_polygon point q = Ok false) polys).
Proof.
  induction polys as [|q rest [IHt IHf]]; cbn [any_polygon].
  - split; split; try discriminate; auto.
    intros (pre & polygon & post & H & _). now destruct pre.
  - destruct (point_in_polygon point q) as [[|]|e] eqn:Eq; cbn [bind]; split; split.
    + intros _. exists [], q, rest. auto.
    + reflexivity.
    + discriminate.
    + intros H. inversion H; congruence.
    + intros H. apply IHt in H as (pre & polygon & post & -> & Hpre & Hp).
      exists (q :: pre), polygon, post. auto.
    + intros (pre & polygon & post & H & Hpre & Hp). apply IHt.
      destruct pre as [|q' pre]; cbn [app] in H; injection H as <- ->; [congruence|].
      inversion Hpre; subst. now exists pre, polygon, post.
    + intros H. constructor; [exact Eq|now apply IHf].
    + intros H. inversion H; subst. now apply IHf.
    + discriminate.
    + intros (pre & polygon & post & H & Hpre & Hp).
      destruct pre as [|q' pre]; cbn [app] in H; injection H as <- ->; [congruence|].
      inversion Hpre; congruence.
    + discriminate.
    + intros H. inversion H; congruence.
Qed.

Section IndexAsPass.

Variable float_of_str : string -> option float.

(** X16: the index is built record by record: it is the entries kept
    for the records, in their order, and the construction raises the
    exception of the first record that raises one. *)
Theorem index_record_by_record (fs : list value) :
  GeoFeatureIndex_init float_of_str fs =
    (entries <- mapM (index_entry float_of_str) fs ;; Ok (kept entries)).
Proof.
  induction fs as [|r rest IH]; [reflexivity|].
  cbn [mapM].
  destruct (index_entry float_of_str r) as [[g|]|e] eqn:Er; cbn [bind].
  - rewrite (init_cons_kept float_of_str r rest g Er), IH.
    now destruct (mapM (index_entry float_of_str) rest).
  - unfold GeoFeatureIndex_init in *. cbn [init_loop]. rewrite Er. cbn [bind].
    rewrite IH. now destruct (mapM (index_entry float_of_str) rest).
  - unfold GeoFeatureIndex_init. cbn [init_loop]. now rewrite Er.
Qed.

End IndexAsPass.
